(** * pych.extern: decorator-driven binding of Python functions to external ones

    A shallow embedding of [module/pych/extern.py] (Python 2): the [typemap]
    table, the [Extern] descriptor, the [FromExtern] decorator with its
    [__call__], [_validate_decl] and [_type_check] methods, the closure
    [wrapped_f], and the two subclasses [FromC] and [FromChapel].

    The decorator mutates one shared [Extern] object and talks to the
    process-wide runtime [pych.runtime.instance]; both live in an explicit
    [World] that every operation threads through a state-and-exception
    monad. *)

From Stdlib Require Import List String Ascii ZArith Bool Arith Lia.
Import ListNotations.
Open Scope string_scope.

(* ===================================================================== *)
(** ** Python values                                                      *)
(* ===================================================================== *)

(** Class objects.  [CUser name base] is a user-defined new-style class with
    a single base class. *)
Inductive pyclass : Type :=
| CObject | CType | CNoneType
| CBool | CInt | CLong | CFloat
| CBasestring | CStr | CUnicode
| CList
| CUser (name : string) (base : pyclass).

(** The hashable values that can occur as a default value of a parameter, as
    the result of a call, or as an actual argument: [None], class objects,
    instances of the primitive classes, and instances of any other class
    (hashed and compared by identity). *)
Inductive value : Type :=
| VNone
| VClass (c : pyclass)
| VBool (b : bool)
| VInt (n : Z)
| VLong (n : Z)
| VFloat (bits : Z)          (* the IEEE-754 binary64 bit pattern *)
| VStr (s : string)
| VUnicode (s : string)
| VObj (c : pyclass) (id : nat).

(** [type(v)] *)
Definition type_of (v : value) : pyclass :=
  match v with
  | VNone => CNoneType
  | VClass _ => CType
  | VBool _ => CBool
  | VInt _ => CInt
  | VLong _ => CLong
  | VFloat _ => CFloat
  | VStr _ => CStr
  | VUnicode _ => CUnicode
  | VObj c _ => c
  end.

(** The classes a class inherits from, nearest first (its method resolution
    order without the class itself). *)
Fixpoint proper_ancestors (c : pyclass) : list pyclass :=
  match c with
  | CObject => []
  | CBool => [CInt; CObject]
  | CStr | CUnicode => [CBasestring; CObject]
  | CUser _ b => b :: proper_ancestors b
  | _ => [CObject]
  end.

Definition pyclass_eq_dec (c d : pyclass) : {c = d} + {c <> d}.
Proof. decide equality. apply string_dec. Defined.

Definition value_eq_dec (v w : value) : {v = w} + {v <> w}.
Proof.
  decide equality;
    try apply Z.eq_dec; try apply string_dec; try apply pyclass_eq_dec;
    try apply Nat.eq_dec; try apply bool_dec.
Defined.

(** [issubclass(c, d) and c is not d] *)
Definition strict_subclass (c d : pyclass) : bool :=
  existsb (fun a => if pyclass_eq_dec a d then true else false)
          (proper_ancestors c).

(** [x == y] where one side is [None] or a class object: such a value is
    equal only to itself, so on the two places the module compares values
    (dictionary membership in [typemap], whose keys are [None] and classes,
    and the comparison of a list of classes with [atypes]) Python's [==] is
    structural equality. *)
Definition py_eqb (v w : value) : bool :=
  if value_eq_dec v w then true else false.

(** [l1 != l2] on lists: element-wise [==]. *)
Definition list_ne (l1 l2 : list value) : bool :=
  if list_eq_dec value_eq_dec l1 l2 then false else true.

(** Truth value of an optional string ([None] and [""] are false). *)
Definition truthy (o : option string) : bool :=
  match o with
  | Some s => negb (s =? "")
  | None => false
  end.

(* ===================================================================== *)
(** ** typemap                                                            *)
(* ===================================================================== *)

Inductive ctype : Type :=
| c_bool | c_int | c_long | c_double | c_char_p | c_wchar_p.

(** The dictionary, in source order; the ctypes side of [None] is [None]. *)
Definition typemap : list (value * option ctype) :=
  [ (VNone,           None);
    (VClass CBool,    Some c_bool);
    (VClass CInt,     Some c_int);
    (VClass CLong,    Some c_long);
    (VClass CFloat,   Some c_double);
    (VClass CStr,     Some c_char_p);
    (VClass CUnicode, Some c_wchar_p) ].

(** [typemap.get(k)]: [None] here means a missing key. *)
Fixpoint dict_get {V : Type} (d : list (value * V)) (k : value) : option V :=
  match d with
  | [] => None
  | (k', v) :: d' => if py_eqb k k' then Some v else dict_get d' k
  end.

(** [k in typemap] *)
Definition in_typemap (k : value) : bool :=
  match dict_get typemap k with Some _ => true | None => false end.

(* ===================================================================== *)
(** ** Exceptions and results                                             *)
(* ===================================================================== *)

Inductive exc_class : Type :=
| ExcTypeError | ExcKeyError | ExcIndexError | ExcException
| ExcOther (name : string).

(** Operands of a [%]-formatted message, kept unformatted. *)
Inductive operand : Type :=
| OpValue (v : value)
| OpName (s : string)
| OpPformat (l : list value).      (* pprint.pformat of a list *)

Inductive message : Type :=
| MsgText (s : string)
| MsgFmt (template : string) (ops : list operand)
| MsgArity (fname : string)        (* the interpreter's "f() takes ... (0 given)" *)
| MsgKey (k : value).

Record exn : Type := mkExn { exc_cls : exc_class; exc_msg : message }.

Inductive result (A : Type) : Type :=
| Return (a : A)
| Raise (e : exn).
Arguments Return {A} a.
Arguments Raise {A} e.

(* ===================================================================== *)
(** ** Python functions seen through [inspect] and a zero-argument call   *)
(* ===================================================================== *)

(** A decorated function: its [__name__], its [__doc__], its formal
    parameters with their default values if any, and its body, as a function
    of the values its parameters are bound to. *)
Record HostFunction : Type := mkHost {
  f_name   : string;
  f_doc    : option string;
  f_params : list (string * option value);
  f_body   : list value -> result value
}.

Record ArgSpec : Type := mkArgSpec {
  args     : list string;
  defaults : option (list value)
}.

Fixpoint the_defaults (ps : list (string * option value)) : list value :=
  match ps with
  | [] => []
  | (_, Some d) :: ps' => d :: the_defaults ps'
  | (_, None) :: ps' => the_defaults ps'
  end.

(** [inspect.getargspec(f)]: the names in declaration order, and the tuple of
    default values, [None] when no parameter has one. *)
Definition getargspec (f : HostFunction) : ArgSpec :=
  {| args := map fst (f_params f);
     defaults := match the_defaults (f_params f) with
                 | [] => None
                 | ds => Some ds
                 end |}.

(** Binding of the parameters for a call without arguments: every parameter
    takes its default, and there is no binding when one has none. *)
Fixpoint bind_defaults (ps : list (string * option value)) : option (list value) :=
  match ps with
  | [] => Some []
  | (_, Some d) :: ps' =>
      match bind_defaults ps' with
      | Some ds => Some (d :: ds)
      | None => None
      end
  | (_, None) :: _ => None
  end.

(** [f()] *)
Definition call0 (f : HostFunction) : result value :=
  match bind_defaults (f_params f) with
  | Some ds => f_body f ds
  | None => Raise (mkExn ExcTypeError (MsgArity (f_name f)))
  end.

(* ===================================================================== *)
(** ** class Extern                                                       *)
(* ===================================================================== *)

(** A ctypes function handle: the native function it stands for and the
    conversions registered on it. *)
Record Handle : Type := mkHandle {
  h_id     : nat;
  argtypes : list (option ctype);
  restype  : option ctype
}.

Record Extern : Type := mkExtern {
  pfunc  : option HostFunction;   (* Python function handle *)
  pname  : option string;         (* Python function name *)
  doc    : option string;         (* Python doc-string *)
  atypes : list value;            (* Python types of function arguments *)
  anames : list string;           (* Python names of function arguments *)
  rtype  : value;                 (* Python type for the return value *)
  efunc  : option Handle;         (* ctypes function handle *)
  ename  : option string;         (* External function name *)
  elib   : option string;         (* Library filename *)
  sfile  : option string;         (* File with sourcecode *)
  slang  : option string          (* Language of the source *)
}.

Definition set_pfunc (x : option HostFunction) (e : Extern) : Extern :=
  mkExtern x (pname e) (doc e) (atypes e) (anames e) (rtype e)
           (efunc e) (ename e) (elib e) (sfile e) (slang e).
Definition set_pname (x : option string) (e : Extern) : Extern :=
  mkExtern (pfunc e) x (doc e) (atypes e) (anames e) (rtype e)
           (efunc e) (ename e) (elib e) (sfile e) (slang e).
Definition set_doc (x : option string) (e : Extern) : Extern :=
  mkExtern (pfunc e) (pname e) x (atypes e) (anames e) (rtype e)
           (efunc e) (ename e) (elib e) (sfile e) (slang e).
Definition set_atypes (x : list value) (e : Extern) : Extern :=
  mkExtern (pfunc e) (pname e) (doc e) x (anames e) (rtype e)
           (efunc e) (ename e) (elib e) (sfile e) (slang e).
Definition set_anames (x : list string) (e : Extern) : Extern :=
  mkExtern (pfunc e) (pname e) (doc e) (atypes e) x (rtype e)
           (efunc e) (ename e) (elib e) (sfile e) (slang e).
Definition set_rtype (x : value) (e : Extern) : Extern :=
  mkExtern (pfunc e) (pname e) (doc e) (atypes e) (anames e) x
           (efunc e) (ename e) (elib e) (sfile e) (slang e).
Definition set_efunc (x : option Handle) (e : Extern) : Extern :=
  mkExtern (pfunc e) (pname e) (doc e) (atypes e) (anames e) (rtype e)
           x (ename e) (elib e) (sfile e) (slang e).
Definition set_ename (x : option string) (e : Extern) : Extern :=
  mkExtern (pfunc e) (pname e) (doc e) (atypes e) (anames e) (rtype e)
           (efunc e) x (elib e) (sfile e) (slang e).
Definition set_elib (x : option string) (e : Extern) : Extern :=
  mkExtern (pfunc e) (pname e) (doc e) (atypes e) (anames e) (rtype e)
           (efunc e) (ename e) x (sfile e) (slang e).

(* ===================================================================== *)
(** ** os.path (POSIX flavour)                                            *)
(* ===================================================================== *)

Module os_path.

(** [s.rfind(c)]: the index of the last occurrence of [c], or [-1]. *)
Fixpoint rfind_from (c : ascii) (s : string) (i last : Z) : Z :=
  match s with
  | EmptyString => last
  | String a s' => rfind_from c s' (i + 1) (if Ascii.eqb a c then i else last)
  end.

Definition rfind (c : ascii) (s : string) : Z := rfind_from c s 0 (-1).

(** [s[:n]] and [s[n:]] *)
Fixpoint take (n : nat) (s : string) : string :=
  match n, s with
  | S n', String a s' => String a (take n' s')
  | _, _ => EmptyString
  end.

Fixpoint drop (n : nat) (s : string) : string :=
  match n, s with
  | S n', String _ s' => drop n' s'
  | _, _ => s
  end.

(** [i = p.rfind('/') + 1; return p[i:]] *)
Definition basename (p : string) : string :=
  let i := (rfind "/" p + 1)%Z in
  drop (Z.to_nat i) p.

(** The loop of [genericpath._splitext] that skips leading dots: [true]
    when a character other than the dot is met at an index from
    [filenameIndex] on, within the next [n] positions. *)
Fixpoint skip_leading_dots (n : nat) (p : string) (filenameIndex : nat) : bool :=
  match n with
  | O => false
  | S n' =>
      match String.get filenameIndex p with
      | Some c =>
          if Ascii.eqb c "." then skip_leading_dots n' p (S filenameIndex)
          else true
      | None => false
      end
  end.

(** [os.path.splitext(p)] *)
Definition splitext (p : string) : string * string :=
  let sepIndex := rfind "/" p in
  let dotIndex := rfind "." p in
  if (dotIndex >? sepIndex)%Z then
    let filenameIndex := (sepIndex + 1)%Z in
    if skip_leading_dots (Z.to_nat (dotIndex - filenameIndex)) p
                         (Z.to_nat filenameIndex)
    then (take (Z.to_nat dotIndex) p, drop (Z.to_nat dotIndex) p)
    else (p, "")
  else (p, "").

End os_path.

(* ===================================================================== *)
(** ** The runtime and the world                                          *)
(* ===================================================================== *)

(** [pych.runtime.instance] and the native side: [hint] records a
    descriptor, [materialize] answers with a function handle or with a false
    value ([None] here), and a handle can be called.  None of them writes to
    the descriptor it is given. *)
Class Runtime : Type := {
  rt_state       : Type;
  rt_hint        : Extern -> rt_state -> rt_state;
  rt_materialize : Extern -> rt_state -> option Handle * rt_state;
  native_call    : Handle -> list value -> rt_state -> result value * rt_state
}.

(** What the module asks of the runtime, in order. *)
Inductive event : Type :=
| EvHint (e : Extern)
| EvMaterialize (e : Extern) (answer : option Handle)
| EvCall (h : Handle) (actuals : list value).

Record World `{Runtime} : Type := mkWorld {
  w_ext : Extern;            (* self._extern, shared by __call__ and wrapped_f *)
  w_rt  : rt_state;
  w_log : list event
}.

Section Monad.
Context `{Runtime}.

Definition M (A : Type) : Type := World -> result A * World.

Definition ret {A} (a : A) : M A := fun w => (Return a, w).
Definition raise {A} (e : exn) : M A := fun w => (Raise e, w).
Definition lift {A} (r : result A) : M A := fun w => (r, w).

Definition bind {A B} (m : M A) (k : A -> M B) : M B :=
  fun w =>
    match m w with
    | (Return a, w') => k a w'
    | (Raise e, w') => (Raise e, w')
    end.

(** Reading [self._extern] and assigning to one of its attributes. *)
Definition self_extern : M Extern := fun w => (Return (w_ext w), w).

Definition assign (g : Extern -> Extern) : M unit :=
  fun w => (Return tt, mkWorld _ (g (w_ext w)) (w_rt w) (w_log w)).

Definition when (b : bool) (m : M unit) : M unit :=
  if b then m else ret tt.
End Monad.

Declare Scope py_scope.
Delimit Scope py_scope with py.
Notation "x <- m ;; k" := (bind m (fun x => k))
  (at level 61, m at next level, right associativity) : py_scope.
Notation "m ;; k" := (bind m (fun _ => k))
  (at level 61, right associativity) : py_scope.
Open Scope py_scope.

Definition str_of (o : option string) : string :=
  match o with Some s => s | None => "" end.

(** The exceptions the module raises, at their raise sites. *)
Definition missing_declaration : exn :=
  mkExn ExcTypeError (MsgText "Missing type declaration on arguments.").

Definition unsupported_type (arg_type : value) (arg : string) : exn :=
  mkExn ExcTypeError
        (MsgFmt "Unsupported type: %s for argument %s"
                [OpValue arg_type; OpName arg]).

Definition unsupported_arg_types (call_types declared : list value) : exn :=
  mkExn ExcTypeError
        (MsgFmt "Unsupported arg-types; %s. Expected: %s"
                [OpPformat call_types; OpPformat declared]).

Definition failed_materializing : exn :=
  mkExn ExcException (MsgText "Failed materializing function!").

(** Raised by the interpreter on the way. *)
Definition not_callable : exn :=
  mkExn ExcTypeError (MsgText "'NoneType' object is not callable").
Definition key_error (k : value) : exn := mkExn ExcKeyError (MsgKey k).
Definition index_error : exn :=
  mkExn ExcIndexError (MsgText "list index out of range").

(** [typemap[k]] *)
Definition typemap_getitem (k : value) : result (option ctype) :=
  match dict_get typemap k with
  | Some c => Return c
  | None => Raise (key_error k)
  end.

(** [[typemap[atype] for atype in l]] *)
Fixpoint typemap_getitems (l : list value) : result (list (option ctype)) :=
  match l with
  | [] => Return []
  | t :: l' =>
      match typemap_getitem t with
      | Raise e => Raise e
      | Return c =>
          match typemap_getitems l' with
          | Raise e => Raise e
          | Return cs => Return (c :: cs)
          end
      end
  end.

(* ===================================================================== *)
(** ** class FromExtern                                                   *)
(* ===================================================================== *)

Module FromExtern.

(** [FromExtern(ename, elib, sfile, slang)]: the object has the single
    attribute [_extern]. *)
Definition __init__ (ename elib sfile slang : option string) : Extern :=
  {| pfunc := None; pname := None; doc := None;
     atypes := []; anames := []; rtype := VNone;
     efunc := None; ename := ename; elib := elib;
     sfile := sfile; slang := slang |}.

(** The loop of [_validate_decl]: [for i, arg in enumerate(anames)]. *)
Fixpoint check_supported (i : nat) (names : list string) (types : list value)
  : result unit :=
  match names with
  | [] => Return tt
  | arg :: names' =>
      match nth_error types i with
      | None => Raise index_error
      | Some arg_type =>
          if negb (in_typemap arg_type)
          then Raise (unsupported_type arg_type arg)
          else check_supported (S i) names' types
      end
  end.

Section Methods.
Context `{Runtime}.

Definition _validate_decl : M unit :=
  e <- self_extern ;;
  if negb (List.length (atypes e) =? List.length (anames e))%nat
  then raise missing_declaration
  else lift (check_supported 0 (anames e) (atypes e)).

Definition _type_check (actuals : list value) : M unit :=
  e <- self_extern ;;
  let call_types := map (fun arg => VClass (type_of arg)) actuals in
  if list_ne call_types (atypes e)
  then raise (unsupported_arg_types call_types (atypes e))
  else ret tt.

(** [pych.runtime.instance.hint(self._extern)] *)
Definition runtime_hint : M unit :=
  fun w =>
    (Return tt,
     mkWorld _ (w_ext w) (rt_hint (w_ext w) (w_rt w))
             (w_log w ++ [EvHint (w_ext w)])%list).

(** [pych.runtime.instance.materialize(self._extern)] *)
Definition runtime_materialize : M (option Handle) :=
  fun w =>
    let (answer, rt') := rt_materialize (w_ext w) (w_rt w) in
    (Return answer,
     mkWorld _ (w_ext w) rt' (w_log w ++ [EvMaterialize (w_ext w) answer])%list).

(** The call of a handle with the actual arguments unpacked. *)
Definition handle_call (h : option Handle) (actuals : list value) : M value :=
  match h with
  | None => raise not_callable
  | Some h =>
      fun w =>
        let (r, rt') := native_call h actuals (w_rt w) in
        (r, mkWorld _ (w_ext w) rt' (w_log w ++ [EvCall h actuals])%list)
  end.

(** [self._extern.pfunc] read back for [inspect.getargspec] and for the
    call without arguments. *)
Definition inspect_pfunc : M ArgSpec :=
  e <- self_extern ;;
  match pfunc e with
  | Some f => ret (getargspec f)
  | None => raise (mkExn ExcTypeError (MsgText "arg is not a Python function"))
  end.

Definition call_pfunc : M value :=
  e <- self_extern ;;
  match pfunc e with
  | Some f => lift (call0 f)
  | None => raise not_callable
  end.

(** The decorator applied to [f].  [Return tt] stands for the returned
    closure [wrapped_f], which closes over [self]. *)
Definition __call__ (f : HostFunction) : M unit :=
  assign (set_pfunc (Some f)) ;;
  assign (set_pname (Some (f_name f))) ;;
  assign (set_doc (f_doc f)) ;;
  arg_spec <- inspect_pfunc ;;
  assign (set_anames (args arg_spec)) ;;
  match defaults arg_spec with
  | Some (d :: ds) => assign (set_atypes (d :: ds))
  | _ => ret tt
  end ;;
  r <- call_pfunc ;;
  assign (set_rtype r) ;;
  _validate_decl ;;
  e <- self_extern ;;
  when (truthy (doc e))
       (assign (set_ename (pname e)) ;;
        assign (set_elib (Some "inline.so"))) ;;
  e <- self_extern ;;
  when (truthy (sfile e))
       (when (negb (truthy (ename e)))
             (assign (set_ename (pname e))) ;;
        assign (set_elib
                  (Some ("lib"
                           ++ fst (os_path.splitext
                                     (os_path.basename (str_of (sfile e))))
                           ++ ".so")))) ;;
  runtime_hint.

Definition wrapped_f (actuals : list value) : M value :=
  _type_check actuals ;;
  e <- self_extern ;;
  when (negb (match efunc e with Some _ => true | None => false end))
       (answer <- runtime_materialize ;;
        match answer with
        | None => raise failed_materializing
        | Some h =>
            ats <- lift (typemap_getitems (atypes e)) ;;
            rt <- lift (typemap_getitem (rtype e)) ;;
            assign (set_efunc (Some (mkHandle (h_id h) ats rt)))
        end) ;;
  e <- self_extern ;;
  handle_call (efunc e) actuals.

End Methods.
End FromExtern.

(** ** class FromC, class FromChapel *)
Module FromC.
Definition __init__ (ename elib sfile : option string) : Extern :=
  FromExtern.__init__ ename elib sfile (Some "C").
End FromC.

Module FromChapel.
Definition __init__ (ename elib sfile : option string) : Extern :=
  FromExtern.__init__ ename elib sfile (Some "Chapel").
End FromChapel.

(* ===================================================================== *)
(** ** A scripted runtime, for running the module on concrete inputs      *)
(* ===================================================================== *)

Module Scripted.

Definition sum_ints (actuals : list value) : Z :=
  fold_right (fun v acc => match v with VInt n => (n + acc)%Z | _ => acc end)
             0%Z actuals.

(** The state is the list of answers [materialize] will still give; once
    it is used up the answer is [None].  Every native function adds up its
    integer arguments. *)
#[export] Instance runtime : Runtime := {|
  rt_state := list (option Handle);
  rt_hint := fun _ s => s;
  rt_materialize := fun _ s =>
    match s with
    | a :: s' => (a, s')
    | [] => (None, [])
    end;
  native_call := fun _ actuals s => (Return (VInt (sum_ints actuals)), s)
|}.

Definition raw (n : nat) : option Handle := Some (mkHandle n [] None).

(** [def add(a=int, b=int): return int] *)
Definition add : HostFunction :=
  mkHost "add" None
         [("a", Some (VClass CInt)); ("b", Some (VClass CInt))]
         (fun _ => Return (VClass CInt)).

(** The same with a doc-string: inline source. *)
Definition add_inline : HostFunction :=
  mkHost "add" (Some "return a + b;")
         [("a", Some (VClass CInt)); ("b", Some (VClass CInt))]
         (fun _ => Return (VClass CInt)).

Definition start (binder : Extern) (answers : list (option Handle)) : World :=
  mkWorld runtime binder answers [].

End Scripted.

(* ===================================================================== *)
(** ** The phases of [__call__] as pure functions of the descriptor       *)
(* ===================================================================== *)

(** Lines 100-110: the attributes read off the function. *)
Definition inferred (f : HostFunction) (e : Extern) : Extern :=
  let e1 := set_anames (map fst (f_params f))
              (set_doc (f_doc f)
                 (set_pname (Some (f_name f)) (set_pfunc (Some f) e))) in
  match the_defaults (f_params f) with
  | [] => e1
  | ds => set_atypes ds e1
  end.

(** Lines 117-131: the two naming blocks, the inline one first. *)
Definition named (e : Extern) : Extern :=
  let e1 := if truthy (doc e)
            then set_elib (Some "inline.so") (set_ename (pname e) e)
            else e in
  if truthy (sfile e1)
  then set_elib (Some ("lib"
                         ++ fst (os_path.splitext
                                   (os_path.basename (str_of (sfile e1))))
                         ++ ".so"))
                (if negb (truthy (ename e1))
                 then set_ename (pname e1) e1
                 else e1)
  else e1.

(** The declaration errors of the module are the two raised by
    [_validate_decl]. *)
Definition DeclarationError (x : exn) : Prop :=
  x = missing_declaration \/ exists t a, x = unsupported_type t a.

Definition TypeMismatchError (x : exn) : Prop :=
  exists call_types declared, x = unsupported_arg_types call_types declared.

Definition materializations (log : list event) : list (option Handle) :=
  flat_map (fun ev => match ev with
                      | EvMaterialize _ a => [a]
                      | _ => []
                      end) log.

Definition successes (answers : list (option Handle)) : nat :=
  List.length (filter (fun a => match a with Some _ => true | None => false end)
                      answers).

(* ===================================================================== *)
(** ** Vocabulary of the statements                                       *)
(* ===================================================================== *)

(** The application of the binder to [f] ends in a declaration error. *)
Definition raises_DeclarationError `{Runtime} (out : result unit * World) : Prop :=
  exists x, fst out = Raise x /\ DeclarationError x.

(** The inferred names and types differ in number, or some inferred type is
    not a key of [typemap]. *)
Definition ill_declared (d : Extern) : Prop :=
  List.length (anames d) <> List.length (atypes d) \/
  exists t, In t (atypes d) /\ in_typemap t = false.

(** The binder accepted [f]: [__call__] returned the closure. *)
Definition accepted `{Runtime} (out : result unit * World) : Prop :=
  fst out = Return tt.

Module Samples.
Import Scripted.

(** [def f(a=list): raise ValueError()] *)
Definition raising : HostFunction :=
  mkHost "f" None [("a", Some (VClass CList))]
         (fun _ => Raise (mkExn (ExcOther "ValueError") (MsgText ""))).

(** [def f(a=int): return list] *)
Definition returns_list : HostFunction :=
  mkHost "f" None [("a", Some (VClass CInt))]
         (fun _ => Return (VClass CList)).

(** [def f(a=None): return int] *)
Definition takes_none : HostFunction :=
  mkHost "f" None [("a", Some VNone)] (fun _ => Return (VClass CInt)).

(** [def f(a=list): return int] *)
Definition takes_list : HostFunction :=
  mkHost "f" None [("a", Some (VClass CList))]
         (fun _ => Return (VClass CInt)).

Definition plain : Extern := FromExtern.__init__ None None None None.
End Samples.

(** The base name of a path with its extension removed. *)
Definition stem (path : string) : string :=
  fst (os_path.splitext (os_path.basename path)).

Definition lib_name (path : string) : string := "lib" ++ stem path ++ ".so".

(** [c in s] *)
Fixpoint occurs (c : ascii) (s : string) : bool :=
  match s with
  | EmptyString => false
  | String a s' => if Ascii.eqb a c then true else occurs c s'
  end.

(** [s] is made of dots only. *)
Fixpoint only_dots (s : string) : bool :=
  match s with
  | EmptyString => true
  | String a s' => if Ascii.eqb a "." then only_dots s' else false
  end.

(** [[type(arg) for arg in args]] *)
Definition call_types (actuals : list value) : list value :=
  map (fun arg => VClass (type_of arg)) actuals.

Section Sequences.
Context `{Runtime}.

(** A sequence of calls of the same [wrapped_f], each caller going on
    after an exception. *)
Fixpoint calls (l : list (list value)) (w : World) : World :=
  match l with
  | [] => w
  | actuals :: l' => calls l' (snd (FromExtern.wrapped_f actuals w))
  end.
End Sequences.

(** Depth of a class below [object]. *)
Fixpoint depth (c : pyclass) : nat :=
  match c with
  | CObject => 0
  | CBool | CStr | CUnicode => 2
  | CUser _ b => S (depth b)
  | _ => 1
  end.

(** The declaration part of a descriptor is in order: the argument types
    and the return type are keys of [typemap]. *)
Definition declared_ok (d : Extern) : Prop :=
  Forall (fun t => in_typemap t = true) (atypes d) /\
  in_typemap (rtype d) = true.

(** The descriptor an event shows to the runtime. *)
Definition event_extern (ev : event) : option Extern :=
  match ev with
  | EvHint e | EvMaterialize e _ => Some e
  | EvCall _ _ => None
  end.

(** [hash(v)] succeeds.  Among the values above only the instances of
    [list], and of a class derived from it, have no hash; for them the
    membership test [v in typemap] raises inside the dictionary, which
    [in_typemap] does not describe. *)
Definition hashable (v : value) : bool :=
  match v with
  | VObj c _ =>
      negb (existsb (fun a => if pyclass_eq_dec a CList then true else false)
                    (c :: proper_ancestors c))
  | _ => true
  end.

(** The interpreter's error for [f()] when a parameter has no default. *)
Definition arity_error (f : HostFunction) : exn :=
  mkExn ExcTypeError (MsgArity (f_name f)).

(** [def f(): return None], a function without parameters. *)
Definition nullary : HostFunction :=
  mkHost "f" None [] (fun _ => Return VNone).

(** [def f(a, b=int): return int], the first parameter without a default. *)
Definition half_declared : HostFunction :=
  mkHost "f" None [("a", None); ("b", Some (VClass CInt))]
         (fun _ => Return (VClass CInt)).

(** [def f(a=int, b=list, c=object): return int], two unsupported types. *)
Definition two_unsupported : HostFunction :=
  mkHost "f" None
         [("a", Some (VClass CInt)); ("b", Some (VClass CList));
          ("c", Some (VClass CObject))]
         (fun _ => Return (VClass CInt)).

(* ===================================================================== *)
(** ** Lemmas on the building blocks                                      *)
(* ===================================================================== *)

Lemma in_typemap_keys (v : value) :
  in_typemap v = true <->
  v = VNone \/ v = VClass CBool \/ v = VClass CInt \/ v = VClass CLong \/
  v = VClass CFloat \/ v = VClass CStr \/ v = VClass CUnicode.
Proof.
  unfold in_typemap, typemap, dict_get, py_eqb. split.
  - repeat match goal with
           | |- context [value_eq_dec ?a ?b] =>
               destruct (value_eq_dec a b) as [->|_]; [tauto|]
           end.
    discriminate.
  - intros H; repeat destruct H as [H|H]; subst; reflexivity.
Qed.

Lemma list_ne_true (l1 l2 : list value) : list_ne l1 l2 = true <-> l1 <> l2.
Proof.
  unfold list_ne. destruct (list_eq_dec value_eq_dec l1 l2); split;
    intros; try discriminate; try reflexivity; congruence.
Qed.

Lemma bind_defaults_all (ps : list (string * option value)) :
  Forall (fun p => snd p <> None) ps ->
  bind_defaults ps = Some (the_defaults ps) /\
  map Some (the_defaults ps) = map snd ps.
Proof.
  induction 1 as [|[n [d|]] ps Hd _ [IH1 IH2]]; simpl.
  - split; reflexivity.
  - rewrite IH1, IH2. split; reflexivity.
  - simpl in Hd. congruence.
Qed.

Lemma bind_defaults_some (ps : list (string * option value)) (ds : list value) :
  bind_defaults ps = Some ds ->
  the_defaults ps = ds /\ List.length ds = List.length ps.
Proof.
  revert ds. induction ps as [|[n [d|]] ps IH]; simpl; intros ds E.
  - inversion E. split; reflexivity.
  - destruct (bind_defaults ps) as [ds'|]; [|discriminate].
    inversion E; subst. destruct (IH ds' eq_refl) as [E1 E2].
    simpl. rewrite E1, E2. split; reflexivity.
  - discriminate.
Qed.

Lemma skipn_cons_nth {A : Type} (l : list A) :
  forall (i : nat) (t : A),
    nth_error l i = Some t -> skipn i l = t :: skipn (S i) l.
Proof.
  induction l as [|x l IH]; intros [|i] t E; simpl in *; try discriminate.
  - congruence.
  - apply IH, E.
Qed.

Lemma check_supported_spec (names : list string) :
  forall (i : nat) (types : list value),
    List.length types = (i + List.length names)%nat ->
    match FromExtern.check_supported i names types with
    | Return _ => forallb in_typemap (skipn i types) = true
    | Raise x => exists t a, x = unsupported_type t a /\ In t types /\
                             In a names /\ in_typemap t = false
    end.
Proof.
  induction names as [|arg names IH]; intros i types Hlen; simpl in *.
  - rewrite skipn_all2 by lia. reflexivity.
  - destruct (nth_error types i) as [t|] eqn:Ht.
    + destruct (in_typemap t) eqn:Hin; simpl.
      * specialize (IH (S i) types ltac:(lia)).
        destruct (FromExtern.check_supported (S i) names types).
        -- rewrite (skipn_cons_nth _ _ _ Ht). simpl. rewrite Hin. exact IH.
        -- destruct IH as (t' & a & -> & ? & ? & ?).
           exists t', a. auto.
      * exists t, arg. repeat split; auto. eapply nth_error_In; eauto.
    + apply nth_error_None in Ht. lia.
Qed.

Section Binding.
Context `{Runtime}.

(** [__call__] unfolded into its phases. *)
Lemma call_phases (f : HostFunction) (w : World) :
  FromExtern.__call__ f w =
  let e1 := inferred f (w_ext w) in
  match call0 f with
  | Raise x => (Raise x, mkWorld _ e1 (w_rt w) (w_log w))
  | Return r =>
      let e2 := set_rtype r e1 in
      if negb (List.length (atypes e2) =? List.length (anames e2))%nat
      then (Raise missing_declaration, mkWorld _ e2 (w_rt w) (w_log w))
      else
        match FromExtern.check_supported 0 (anames e2) (atypes e2) with
        | Raise x => (Raise x, mkWorld _ e2 (w_rt w) (w_log w))
        | Return _ =>
            let e3 := named e2 in
            (Return tt,
             mkWorld _ e3 (rt_hint e3 (w_rt w)) (w_log w ++ [EvHint e3])%list)
        end
  end.
Proof.
  destruct w as [e rt log].
  unfold FromExtern.__call__, FromExtern.inspect_pfunc, FromExtern.call_pfunc,
    FromExtern._validate_decl, FromExtern.runtime_hint, inferred, named,
    getargspec, bind, assign, self_extern, ret, raise, lift, when; simpl.
  destruct (the_defaults (f_params f)) as [|d ds]; simpl;
    (destruct (call0 f) as [r|x]; simpl; [|reflexivity]);
    (destruct (negb _); simpl; [reflexivity|]);
    (destruct (FromExtern.check_supported _ _ _) as [[]|x]; simpl;
     [|reflexivity]);
    destruct (truthy (f_doc f)); simpl;
    destruct (truthy (sfile e)); simpl; try reflexivity;
    try (destruct (truthy (ename e)); reflexivity);
    destruct (f_name f =? ""); reflexivity.
Qed.

(** The attributes of [inferred]. *)
Lemma inferred_fields (f : HostFunction) (e : Extern) :
  let d := inferred f e in
  pfunc d = Some f /\ pname d = Some (f_name f) /\ doc d = f_doc f /\
  anames d = map fst (f_params f) /\
  atypes d = match the_defaults (f_params f) with
             | [] => atypes e
             | ds => ds
             end /\
  rtype d = rtype e /\ efunc d = efunc e /\ ename d = ename e /\
  elib d = elib e /\ sfile d = sfile e /\ slang d = slang e.
Proof.
  unfold inferred. destruct (the_defaults (f_params f)); simpl; tauto.
Qed.

(** What the naming blocks leave alone. *)
Lemma named_fields (e : Extern) :
  let d := named e in
  pfunc d = pfunc e /\ pname d = pname e /\ doc d = doc e /\
  anames d = anames e /\ atypes d = atypes e /\ rtype d = rtype e /\
  efunc d = efunc e /\ sfile d = sfile e /\ slang d = slang e.
Proof.
  unfold named.
  destruct (truthy (doc e)); simpl;
    destruct (truthy (sfile e)); simpl; try tauto;
    match goal with
    | |- context [negb (truthy ?o)] => destruct (truthy o); simpl
    end; tauto.
Qed.

(** The three ways [__call__] can end once the call without arguments
    has returned [r]. *)
Lemma call_cases (f : HostFunction) (w : World) (r : value) :
  call0 f = Return r ->
  let e2 := set_rtype r (inferred f (w_ext w)) in
  (List.length (atypes e2) = List.length (anames e2) /\
   FromExtern.check_supported 0 (anames e2) (atypes e2) = Return tt /\
   FromExtern.__call__ f w =
     (Return tt,
      mkWorld _ (named e2) (rt_hint (named e2) (w_rt w))
              (w_log w ++ [EvHint (named e2)])%list))
  \/
  (List.length (atypes e2) <> List.length (anames e2) /\
   FromExtern.__call__ f w =
     (Raise missing_declaration, mkWorld _ e2 (w_rt w) (w_log w)))
  \/
  (exists x,
      List.length (atypes e2) = List.length (anames e2) /\
      FromExtern.check_supported 0 (anames e2) (atypes e2) = Raise x /\
      FromExtern.__call__ f w = (Raise x, mkWorld _ e2 (w_rt w) (w_log w))).
Proof.
  intros Hcall e2. rewrite call_phases. cbv zeta. rewrite Hcall. fold e2.
  destruct (Nat.eqb_spec (List.length (atypes e2)) (List.length (anames e2)))
    as [E|NE]; simpl negb; cbv iota.
  - destruct (FromExtern.check_supported 0 (anames e2) (atypes e2))
      as [[]|x].
    + left. auto.
    + right. right. exists x. auto.
  - right. left. auto.
Qed.

End Binding.

(* ===================================================================== *)
(** ** Signature inference                                                *)
(* ===================================================================== *)

Section SignatureInference.
Context `{Runtime}.

Lemma inferred_atypes_fresh (f : HostFunction) (e : Extern) :
  atypes e = [] -> atypes (inferred f e) = the_defaults (f_params f).
Proof.
  intros E. destruct (inferred_fields f e) as (_ & _ & _ & _ & Ha & _).
  rewrite Ha. destruct (the_defaults (f_params f)); auto.
Qed.

(** C1.  A freshly built binder applied to a function whose N parameters
    all carry a default and whose zero-argument call returns [r] leaves a
    descriptor with the N parameter names in declaration order in
    [anames], the N defaults in order in [atypes] and [r] in [rtype]; the
    application returns normally when the defaults are keys of
    [typemap]. *)
Theorem signature_inference
    (ename elib sfile slang : option string) (f : HostFunction)
    (rt : rt_state) (log : list event) (r : value) :
  Forall (fun p => snd p <> None) (f_params f) ->
  call0 f = Return r ->
  let out := FromExtern.__call__ f
               (mkWorld _ (FromExtern.__init__ ename elib sfile slang) rt log) in
  let d := w_ext (snd out) in
  List.length (anames d) = List.length (f_params f) /\
  anames d = map fst (f_params f) /\
  map Some (atypes d) = map snd (f_params f) /\
  rtype d = r /\
  (forallb in_typemap (atypes d) = true -> fst out = Return tt).
Proof.
  intros Hall Hcall.
  destruct (bind_defaults_all _ Hall) as [_ Hmap].
  assert (Hlen : List.length (the_defaults (f_params f))
                 = List.length (f_params f)).
  { rewrite <- (length_map Some), Hmap, length_map. reflexivity. }
  set (b := FromExtern.__init__ ename elib sfile slang).
  assert (Hat : atypes (inferred f b) = the_defaults (f_params f))
    by (apply inferred_atypes_fresh; reflexivity).
  destruct (inferred_fields f b) as (_ & _ & _ & Han & _).
  pose proof (check_supported_spec (map fst (f_params f)) 0
                (the_defaults (f_params f))) as Hchk.
  rewrite length_map in Hchk. specialize (Hchk Hlen).
  intros out d.
  destruct (call_cases f (mkWorld _ b rt log) r Hcall)
    as [(_ & _ & E) | [(NE & E) | (x & _ & Ex & E)]];
    simpl w_ext in *; simpl w_rt in *; simpl w_log in *;
    fold out in E; subst d; rewrite E; simpl snd; simpl fst; simpl w_ext.
  - destruct (named_fields (set_rtype r (inferred f b)))
      as (_ & _ & _ & -> & -> & -> & _).
    simpl rtype. change (atypes (set_rtype r (inferred f b)))
      with (atypes (inferred f b)).
    change (anames (set_rtype r (inferred f b)))
      with (anames (inferred f b)).
    rewrite Hat, Han, length_map. repeat split; auto.
  - exfalso. apply NE.
    change (List.length (atypes (inferred f b))
            = List.length (anames (inferred f b))).
    rewrite Hat, Han, length_map. exact Hlen.
  - change (atypes (set_rtype r (inferred f b)))
      with (atypes (inferred f b)) in *.
    change (anames (set_rtype r (inferred f b)))
      with (anames (inferred f b)) in *.
    simpl rtype. rewrite Hat, Han in *. rewrite length_map.
    rewrite Ex in Hchk. destruct Hchk as (t & a & _ & Hin & _ & Hbad).
    repeat split; auto.
    intros Hok. rewrite forallb_forall in Hok.
    rewrite (Hok t Hin) in Hbad. discriminate.
Qed.

(** With no parameter at all, [atypes] keeps the empty list of
    [__init__]. *)
Lemma nullary_signature (ename elib sfile slang : option string)
    (f : HostFunction) (rt : rt_state) (log : list event) :
  f_params f = [] ->
  let out := FromExtern.__call__ f
               (mkWorld _ (FromExtern.__init__ ename elib sfile slang) rt log) in
  anames (w_ext (snd out)) = [] /\ atypes (w_ext (snd out)) = [].
Proof.
  intros E. cbv zeta. rewrite call_phases. cbv zeta.
  unfold inferred, call0. rewrite E. simpl.
  destruct (f_body f []); simpl; [|tauto].
  match goal with
  | |- context [named ?e] =>
      destruct (named_fields e) as (_ & _ & _ & -> & -> & _)
  end.
  simpl. tauto.
Qed.

End SignatureInference.

Lemma signature_inference_witness :
  Forall (fun p => snd p <> None) (f_params Scripted.add) /\
  call0 Scripted.add = Return (VClass CInt) /\
  let out := FromExtern.__call__ Scripted.add
               (Scripted.start (FromExtern.__init__ None None (Some "add.c") (Some "C"))
                               [Scripted.raw 7]) in
  let d := w_ext (snd out) in
  List.length (anames d) = 2%nat /\
  anames d = ["a"; "b"] /\
  map Some (atypes d) = [Some (VClass CInt); Some (VClass CInt)] /\
  rtype d = VClass CInt /\
  (forallb in_typemap (atypes d) = true -> fst out = Return tt).
Proof.
  assert (H1 : Forall (fun p : string * option value => snd p <> None)
                      (f_params Scripted.add))
    by (repeat constructor; simpl; discriminate).
  assert (H2 : call0 Scripted.add = Return (VClass CInt)) by reflexivity.
  split; [exact H1|]. split; [exact H2|].
  exact (@signature_inference Scripted.runtime
           None None (Some "add.c") (Some "C") Scripted.add
           [Scripted.raw 7] [] (VClass CInt) H1 H2).
Defined.

(* ===================================================================== *)
(** ** Validation of the declaration                                      *)
(* ===================================================================== *)

Section Validation.
Context `{Runtime}.

(** An accepted application went through every phase. *)
Lemma accepted_inv (f : HostFunction) (w : World) :
  accepted (FromExtern.__call__ f w) ->
  exists r,
    call0 f = Return r /\
    let e2 := set_rtype r (inferred f (w_ext w)) in
    List.length (atypes e2) = List.length (anames e2) /\
    FromExtern.check_supported 0 (anames e2) (atypes e2) = Return tt /\
    FromExtern.__call__ f w =
      (Return tt,
       mkWorld _ (named e2) (rt_hint (named e2) (w_rt w))
               (w_log w ++ [EvHint (named e2)])%list).
Proof.
  unfold accepted. intros Hacc.
  destruct (call0 f) as [r|x] eqn:Hcall.
  - exists r. split; [reflexivity|].
    destruct (call_cases f w r Hcall)
      as [(E1 & E2 & E) | [(_ & E) | (x & _ & _ & E)]];
      try (rewrite E in Hacc; simpl in Hacc; discriminate).
    cbv zeta. auto.
  - rewrite call_phases in Hacc. cbv zeta in Hacc. rewrite Hcall in Hacc.
    discriminate.
Qed.

(** Every exit of [__call__] by an exception happens before the hint. *)
Lemma raise_before_hint (f : HostFunction) (w : World) (x : exn) :
  fst (FromExtern.__call__ f w) = Raise x ->
  w_rt (snd (FromExtern.__call__ f w)) = w_rt w /\
  w_log (snd (FromExtern.__call__ f w)) = w_log w.
Proof.
  rewrite call_phases. cbv zeta.
  destruct (call0 f) as [r|y]; [|simpl; auto].
  destruct (negb _); [simpl; auto|].
  destruct (FromExtern.check_supported _ _ _) as [[]|y]; simpl; auto.
  discriminate.
Qed.

Lemma supported_all (names : list string) (types : list value) :
  List.length types = List.length names ->
  FromExtern.check_supported 0 names types = Return tt ->
  Forall (fun t => in_typemap t = true) types.
Proof.
  intros Hlen Hchk.
  pose proof (check_supported_spec names 0 types Hlen) as Hs.
  rewrite Hchk in Hs. simpl in Hs.
  apply Forall_forall. apply forallb_forall. exact Hs.
Qed.

(** C4, amended.  When the call of the function without arguments returns,
    applying the binder raises one of the two declaration errors exactly
    when the inferred names and types differ in number or some inferred
    type is not a key of [typemap]; and whenever applying the binder
    raises, for whatever reason, the runtime has seen neither a hint nor a
    materialize. *)
Theorem declaration_validation (f : HostFunction) (w : World) :
  let out := FromExtern.__call__ f w in
  (forall r, call0 f = Return r ->
             (raises_DeclarationError out <->
              ill_declared (inferred f (w_ext w)))) /\
  (forall x, fst out = Raise x ->
             w_rt (snd out) = w_rt w /\ w_log (snd out) = w_log w).
Proof.
  intros out. split; [|intros x; apply raise_before_hint].
  intros r Hcall. unfold raises_DeclarationError, ill_declared.
  change (atypes (inferred f (w_ext w)))
    with (atypes (set_rtype r (inferred f (w_ext w)))).
  change (anames (inferred f (w_ext w)))
    with (anames (set_rtype r (inferred f (w_ext w)))).
  destruct (call_cases f w r Hcall)
    as [(E1 & E2 & E3) | [(NE & E) | (x & E1 & E2 & E3)]]; cbv zeta in *.
  - subst out. rewrite E3. simpl fst. split.
    + intros (x & Hx & _). discriminate.
    + intros [NE | (t & Hin & Hbad)]; [congruence|].
      pose proof (supported_all _ _ E1 E2) as Hall.
      rewrite Forall_forall in Hall. rewrite (Hall t Hin) in Hbad.
      discriminate.
  - subst out. rewrite E. simpl fst. split.
    + intros _. left. congruence.
    + intros _. exists missing_declaration. split; [reflexivity|].
      left. reflexivity.
  - subst out. rewrite E3. simpl fst.
    pose proof (check_supported_spec _ 0 _ E1) as Hs. rewrite E2 in Hs.
    destruct Hs as (t & a & -> & Hin & _ & Hbad). split.
    + intros _. right. exists t. auto.
    + intros _. exists (unsupported_type t a). split; [reflexivity|].
      right. exists t, a. reflexivity.
Qed.

(** For a freshly built binder the first alternative never shows: when the
    call without arguments returns, every parameter has a default, so
    names and types agree in number. *)
Lemma fresh_counts_agree (ename elib sfile slang : option string)
    (f : HostFunction) (r : value) :
  call0 f = Return r ->
  let d := inferred f (FromExtern.__init__ ename elib sfile slang) in
  List.length (anames d) = List.length (atypes d).
Proof.
  unfold call0. intros Hcall.
  destruct (bind_defaults (f_params f)) as [ds|] eqn:Hb; [|discriminate].
  destruct (bind_defaults_some _ _ Hb) as [Hd Hl].
  cbv zeta. rewrite inferred_atypes_fresh by reflexivity.
  destruct (inferred_fields f (FromExtern.__init__ ename elib sfile slang))
    as (_ & _ & _ & -> & _).
  rewrite length_map, Hd. auto.
Qed.

Lemma accepted_atypes_supported (f : HostFunction) (w : World) :
  accepted (FromExtern.__call__ f w) ->
  Forall (fun t => in_typemap t = true)
         (atypes (w_ext (snd (FromExtern.__call__ f w)))).
Proof.
  intros Hacc.
  destruct (accepted_inv f w Hacc) as (r & _ & E1 & E2 & E3).
  rewrite E3. simpl snd. simpl w_ext.
  destruct (named_fields (set_rtype r (inferred f (w_ext w))))
    as (_ & _ & _ & _ & -> & _).
  eapply supported_all; eauto.
Qed.

(** C7, amended.  In an accepted declaration every element of [atypes] is
    a key of [typemap]; [None], the tag of "no value", is one of these keys
    and is not told apart from the others. *)
Theorem accepted_argument_types (f : HostFunction) (w : World) :
  let out := FromExtern.__call__ f w in
  accepted out ->
  Forall (fun t => in_typemap t = true) (atypes (w_ext (snd out))) /\
  in_typemap VNone = true.
Proof.
  intros out Hacc. split; [|reflexivity].
  apply accepted_atypes_supported, Hacc.
Qed.

(** The value returned by the call without arguments plays no part in
    the validation. *)
Lemma acceptance_ignores_rtype (f : HostFunction) (w : World) (r r' : value)
    (body' : list value -> result value) :
  call0 f = Return r ->
  (forall ds, body' ds = Return r') ->
  let f' := mkHost (f_name f) (f_doc f) (f_params f) body' in
  accepted (FromExtern.__call__ f w) ->
  accepted (FromExtern.__call__ f' w) /\
  rtype (w_ext (snd (FromExtern.__call__ f' w))) = r'.
Proof.
  intros Hcall Hbody f' Hacc.
  destruct (accepted_inv f w Hacc) as (r0 & Hr0 & E1 & E2 & _).
  assert (Hcall' : call0 f' = Return r').
  { unfold call0 in *. simpl.
    destruct (bind_defaults (f_params f)); [apply Hbody|discriminate]. }
  assert (Ha : atypes (inferred f' (w_ext w)) = atypes (inferred f (w_ext w))).
  { destruct (inferred_fields f (w_ext w)) as (_ & _ & _ & _ & -> & _).
    destruct (inferred_fields f' (w_ext w)) as (_ & _ & _ & _ & -> & _).
    reflexivity. }
  assert (Hn : anames (inferred f' (w_ext w)) = anames (inferred f (w_ext w))).
  { destruct (inferred_fields f (w_ext w)) as (_ & _ & _ & -> & _).
    destruct (inferred_fields f' (w_ext w)) as (_ & _ & _ & -> & _).
    reflexivity. }
  destruct (call_cases f' w r' Hcall')
    as [(_ & _ & E) | [(NE & _) | (x & _ & Ex & _)]]; cbv zeta in *.
  - unfold accepted. rewrite E. simpl. split; [reflexivity|].
    destruct (named_fields (set_rtype r' (inferred f' (w_ext w))))
      as (_ & _ & _ & _ & _ & -> & _).
    reflexivity.
  - exfalso. apply NE.
    change (List.length (atypes (inferred f' (w_ext w)))
            = List.length (anames (inferred f' (w_ext w)))).
    rewrite Ha, Hn. exact E1.
  - exfalso.
    change (FromExtern.check_supported 0 (anames (inferred f' (w_ext w)))
              (atypes (inferred f' (w_ext w))) = Raise x) in Ex.
    rewrite Ha, Hn in Ex.
    change (FromExtern.check_supported 0 (anames (inferred f (w_ext w)))
              (atypes (inferred f (w_ext w))) = Return tt) in E2.
    congruence.
Qed.

End Validation.

Lemma declaration_validation_witness :
  let w := Scripted.start Samples.plain [] in
  let out := FromExtern.__call__ Samples.takes_list w in
  call0 Samples.takes_list = Return (VClass CInt) /\
  ill_declared (inferred Samples.takes_list (w_ext w)) /\
  raises_DeclarationError out /\
  w_log (snd out) = [].
Proof.
  intros w out.
  assert (Hcall : call0 Samples.takes_list = Return (VClass CInt))
    by reflexivity.
  assert (Hill : ill_declared (inferred Samples.takes_list (w_ext w))).
  { right. exists (VClass CList). split; [left; reflexivity|reflexivity]. }
  destruct (@declaration_validation Scripted.runtime Samples.takes_list w)
    as [Hiff Hquiet].
  pose proof (proj2 (Hiff _ Hcall) Hill) as Hraise.
  split; [exact Hcall|]. split; [exact Hill|]. split; [exact Hraise|].
  destruct Hraise as (x & Hx & _).
  exact (proj2 (Hquiet x Hx)).
Defined.

(** C4 as stated fails: the function is called before the validation, so
    when the call raises the declaration is never looked at. *)
Lemma declaration_validation_counterexample :
  let w := Scripted.start Samples.plain [] in
  let out := FromExtern.__call__ Samples.raising w in
  ill_declared (inferred Samples.raising (w_ext w)) /\
  fst out = Raise (mkExn (ExcOther "ValueError") (MsgText "")) /\
  ~ (raises_DeclarationError out <->
     ill_declared (inferred Samples.raising (w_ext w))).
Proof.
  intros w out.
  assert (Hill : ill_declared (inferred Samples.raising (w_ext w))).
  { right. exists (VClass CList). split; [left; reflexivity|reflexivity]. }
  split; [exact Hill|]. split; [reflexivity|].
  intros [_ Hback]. destruct (Hback Hill) as (x & Hx & Hd).
  change (fst out) with (@Raise unit (mkExn (ExcOther "ValueError") (MsgText "")))
    in Hx.
  inversion Hx; subst x.
  destruct Hd as [Hd | (t & a & Hd)]; discriminate Hd.
Qed.

Lemma accepted_argument_types_witness :
  let out := FromExtern.__call__ Scripted.add
               (Scripted.start Samples.plain []) in
  accepted out /\
  Forall (fun t => in_typemap t = true) (atypes (w_ext (snd out))) /\
  in_typemap VNone = true.
Proof.
  intros out.
  assert (Hacc : accepted out) by reflexivity.
  split; [exact Hacc|].
  exact (@accepted_argument_types Scripted.runtime Scripted.add
           (Scripted.start Samples.plain []) Hacc).
Defined.

(** C7 as stated fails: [None] is a key of [typemap] like any other, and a
    parameter declared with it is accepted. *)
Lemma void_argument_counterexample :
  let out := FromExtern.__call__ Samples.takes_none
               (Scripted.start Samples.plain []) in
  accepted out /\ atypes (w_ext (snd out)) = [VNone] /\
  ~ (accepted out -> ~ In VNone (atypes (w_ext (snd out)))).
Proof.
  intros out. split; [reflexivity|]. split; [reflexivity|].
  intros Hclaim. apply Hclaim; [reflexivity|]. left. reflexivity.
Qed.

(** C6 on the code: the value returned by the call without arguments is
    stored in [rtype] and never looked up in [typemap] at binding, so a
    declaration returning [list] is accepted; its first call then stops on
    [typemap[rtype]], after the runtime has materialized the function and
    before the handle is registered. *)
Theorem return_type_unchecked :
  let out := FromExtern.__call__ Samples.returns_list
               (Scripted.start Samples.plain [Scripted.raw 7]) in
  accepted out /\
  rtype (w_ext (snd out)) = VClass CList /\
  in_typemap (rtype (w_ext (snd out))) = false /\
  let out' := FromExtern.wrapped_f [VInt 1] (snd out) in
  fst out' = Raise (key_error (VClass CList)) /\
  materializations (w_log (snd out')) = [Scripted.raw 7] /\
  efunc (w_ext (snd out')) = None.
Proof. repeat split. Qed.

(* ===================================================================== *)
(** ** Naming derivation                                                  *)
(* ===================================================================== *)

Section PathLemmas.
Import os_path.

Lemma rfind_from_app (c : ascii) (s1 s2 : string) :
  forall i last,
    rfind_from c (s1 ++ s2) i last
    = rfind_from c s2 (i + Z.of_nat (String.length s1))
                 (rfind_from c s1 i last).
Proof.
  induction s1 as [|a s1 IH]; intros i last; simpl.
  - rewrite Z.add_0_r. reflexivity.
  - rewrite IH. f_equal. lia.
Qed.

Lemma rfind_from_absent (c : ascii) (s : string) :
  occurs c s = false -> forall i last, rfind_from c s i last = last.
Proof.
  induction s as [|a s IH]; simpl; intros Hocc i last; [reflexivity|].
  destruct (Ascii.eqb a c); [discriminate|]. apply IH, Hocc.
Qed.

Lemma drop_app (s1 s2 : string) : drop (String.length s1) (s1 ++ s2) = s2.
Proof.
  induction s1 as [|a s1 IH]; simpl; [|exact IH].
  destruct s2; reflexivity.
Qed.

Lemma take_app (s1 s2 : string) : take (String.length s1) (s1 ++ s2) = s1.
Proof.
  induction s1 as [|a s1 IH]; simpl.
  - destruct s2; reflexivity.
  - rewrite IH. reflexivity.
Qed.

Lemma occurs_app (c : ascii) (s1 s2 : string) :
  occurs c (s1 ++ s2) = occurs c s1 || occurs c s2.
Proof.
  induction s1 as [|a s1 IH]; simpl; [reflexivity|].
  destruct (Ascii.eqb a c); auto.
Qed.

(** A path without a slash is its own base name; everything up to the
    last slash is cut off otherwise. *)
Lemma basename_plain (file : string) :
  occurs "/" file = false -> basename file = file.
Proof.
  intros Hocc. unfold basename, rfind.
  rewrite rfind_from_absent by exact Hocc. reflexivity.
Qed.

Lemma length_append (s1 s2 : string) :
  String.length (s1 ++ s2) = (String.length s1 + String.length s2)%nat.
Proof. induction s1 as [|a s1 IH]; simpl; congruence. Qed.

Lemma append_assoc (s1 s2 s3 : string) :
  (s1 ++ s2) ++ s3 = s1 ++ s2 ++ s3.
Proof. induction s1 as [|a s1 IH]; simpl; congruence. Qed.

Lemma basename_dir (dir file : string) :
  occurs "/" file = false -> basename (dir ++ "/" ++ file) = file.
Proof.
  intros Hocc. unfold basename, rfind.
  rewrite rfind_from_app. simpl rfind_from.
  rewrite rfind_from_absent by exact Hocc.
  match goal with
  | |- drop ?n _ = _ =>
      replace n with (String.length (dir ++ "/"))
        by (rewrite length_append; simpl; lia)
  end.
  rewrite <- append_assoc. apply drop_app.
Qed.

Lemma skip_leading_dots_app (name rest : string) :
  only_dots name = false ->
  forall pre : string,
    only_dots pre = true ->
    skip_leading_dots (String.length name) (pre ++ name ++ rest)
                      (String.length pre) = true.
Proof.
  induction name as [|a name IH]; simpl; intros Hdots pre Hpre;
    [discriminate|].
  assert (Hget : String.get (String.length pre)
                            (pre ++ String a (name ++ rest)) = Some a).
  { clear. induction pre; simpl; auto. }
  rewrite Hget.
  destruct (Ascii.eqb a ".") eqn:Ea; [|reflexivity].
  apply Ascii.eqb_eq in Ea. subst a.
  specialize (IH Hdots (pre ++ ".")).
  replace (String.length (pre ++ ".")) with (S (String.length pre)) in IH
    by (rewrite length_append; simpl; lia).
  rewrite append_assoc in IH. apply IH. clear - Hpre.
  induction pre as [|b pre IHp]; simpl in *; [reflexivity|].
  destruct (Ascii.eqb b "."); [auto|discriminate].
Qed.

(** What "path and extension stripped" comes to on a path made of a
    directory part, a name that is not made of dots only, and an
    extension. *)
Lemma stem_strips (dir name ext : string) :
  occurs "/" name = false -> occurs "/" ext = false ->
  occurs "." ext = false -> only_dots name = false ->
  stem (name ++ "." ++ ext) = name /\
  stem (dir ++ "/" ++ name ++ "." ++ ext) = name.
Proof.
  intros Hn He Hd Hdots.
  assert (Hfile : occurs "/" (name ++ "." ++ ext) = false).
  { rewrite occurs_app, Hn. simpl. exact He. }
  assert (Hsplit : fst (splitext (name ++ "." ++ ext)) = name).
  { unfold splitext, rfind.
    rewrite (rfind_from_absent "/") by exact Hfile.
    rewrite rfind_from_app. simpl rfind_from.
    rewrite (rfind_from_absent "." ext) by exact Hd.
    replace (Z.of_nat (String.length name) >? -1)%Z with true
      by (symmetry; apply Z.gtb_lt; lia).
    replace (Z.to_nat (Z.of_nat (String.length name) - (-1 + 1)))
      with (String.length name) by lia.
    replace (Z.to_nat (Z.of_nat (String.length name)))
      with (String.length name) by lia.
    pose proof (skip_leading_dots_app name ("." ++ ext) Hdots ""
                  eq_refl) as Hskip.
    change (String.length "") with (Z.to_nat (-1 + 1)) in Hskip.
    change ("" ++ name ++ "." ++ ext) with (name ++ "." ++ ext) in Hskip.
    rewrite Hskip.
    simpl fst. apply take_app. }
  unfold stem. split.
  - rewrite basename_plain by exact Hfile. exact Hsplit.
  - rewrite basename_dir by exact Hfile. exact Hsplit.
Qed.

Lemma stem_plain (dir name : string) :
  occurs "/" name = false -> occurs "." name = false ->
  stem name = name /\ stem (dir ++ "/" ++ name) = name.
Proof.
  intros Hs Hd.
  assert (Hsplit : fst (splitext name) = name).
  { unfold splitext, rfind.
    rewrite (rfind_from_absent "/") by exact Hs.
    rewrite (rfind_from_absent ".") by exact Hd.
    reflexivity. }
  unfold stem. split.
  - rewrite basename_plain by exact Hs. exact Hsplit.
  - rewrite basename_dir by exact Hs. exact Hsplit.
Qed.

Lemma only_dots_nonempty (name rest : string) :
  only_dots name = false -> name ++ rest <> "".
Proof. destruct name; simpl; [discriminate|]. intros _ E. discriminate E. Qed.

Lemma append_nonempty (s1 s2 : string) : s2 <> "" -> s1 ++ s2 <> "".
Proof.
  intros Hs E. destruct s1; simpl in E; [contradiction|discriminate].
Qed.

End PathLemmas.

Section Naming.
Context `{Runtime}.

Lemma truthy_some (s : string) : s <> "" -> truthy (Some s) = true.
Proof.
  intros Hs. simpl. destruct (String.eqb_spec s ""); [contradiction|reflexivity].
Qed.

Lemma named_elib_sfile (e : Extern) :
  truthy (sfile e) = true ->
  elib (named e) = Some (lib_name (str_of (sfile e))).
Proof.
  intros Hs. unfold named, lib_name, stem.
  destruct (truthy (doc e)); simpl sfile; rewrite Hs; reflexivity.
Qed.

Lemma named_elib_inline (e : Extern) :
  truthy (doc e) = true -> truthy (sfile e) = false ->
  elib (named e) = Some "inline.so".
Proof.
  intros Hd Hs. unfold named. rewrite Hd. simpl sfile. rewrite Hs.
  reflexivity.
Qed.

Lemma named_ename_inline (e : Extern) :
  truthy (doc e) = true -> ename (named e) = pname e.
Proof.
  intros Hd. unfold named. rewrite Hd. simpl sfile. simpl pname.
  simpl ename at 2.
  destruct (truthy (sfile e)); [|reflexivity].
  destruct (truthy (pname e)); reflexivity.
Qed.

Lemma named_ename_sfile (e : Extern) :
  truthy (doc e) = false -> truthy (sfile e) = true ->
  ename (named e) = if truthy (ename e) then ename e else pname e.
Proof.
  intros Hd Hs. unfold named. rewrite Hd, Hs.
  destruct (truthy (ename e)); reflexivity.
Qed.

(** The descriptor of an accepted application is [named] applied to a
    descriptor that has the binder's parameters and the function's name
    and doc-string. *)
Lemma accepted_descriptor (f : HostFunction) (w : World) :
  accepted (FromExtern.__call__ f w) ->
  exists e2,
    w_ext (snd (FromExtern.__call__ f w)) = named e2 /\
    doc e2 = f_doc f /\ pname e2 = Some (f_name f) /\
    sfile e2 = sfile (w_ext w) /\ ename e2 = ename (w_ext w) /\
    elib e2 = elib (w_ext w) /\ efunc e2 = efunc (w_ext w).
Proof.
  intros Hacc. destruct (accepted_inv f w Hacc) as (r & _ & _ & _ & E).
  exists (set_rtype r (inferred f (w_ext w))). rewrite E.
  destruct (inferred_fields f (w_ext w))
    as (_ & Hp & Hd & _ & _ & _ & He & Hen & Hel & Hs & _).
  simpl. repeat split; assumption.
Qed.

(** C5.  With no library name given, an accepted declaration bound with the
    source file [name.ext], alone or under any directory, gets the library
    name "lib" + name + ".so": the directory and the extension are cut off
    ("libfoo.so" for "foo.chpl" and for "/src/foo.chpl"); a file without
    extension gets "lib" + its base name + ".so"; and a function with a
    doc-string bound without a source file gets "inline.so". *)
Theorem library_name_derivation
    (ename slang : option string) (f : HostFunction)
    (rt : rt_state) (log : list event) :
  (forall dir name ext path : string,
      occurs "/" name = false -> occurs "/" ext = false ->
      occurs "." ext = false -> only_dots name = false ->
      path = name ++ "." ++ ext \/ path = dir ++ "/" ++ name ++ "." ++ ext ->
      let out := FromExtern.__call__ f
                   (mkWorld _ (FromExtern.__init__ ename None (Some path) slang)
                            rt log) in
      accepted out ->
      elib (w_ext (snd out)) = Some ("lib" ++ name ++ ".so")) /\
  (forall dir name path : string,
      name <> "" -> occurs "/" name = false -> occurs "." name = false ->
      path = name \/ path = dir ++ "/" ++ name ->
      let out := FromExtern.__call__ f
                   (mkWorld _ (FromExtern.__init__ ename None (Some path) slang)
                            rt log) in
      accepted out ->
      elib (w_ext (snd out)) = Some ("lib" ++ name ++ ".so")) /\
  (truthy (f_doc f) = true ->
   let out := FromExtern.__call__ f
                (mkWorld _ (FromExtern.__init__ ename None None slang) rt log) in
   accepted out ->
   elib (w_ext (snd out)) = Some "inline.so").
Proof.
  split; [|split].
  - intros dir name ext path Hn He Hd Hdots Hpath out Hacc. subst out.
    destruct (stem_strips dir name ext Hn He Hd Hdots) as [S1 S2].
    assert (Hne : path <> "").
    { destruct Hpath as [-> | ->].
      - apply only_dots_nonempty, Hdots.
      - apply append_nonempty. discriminate. }
    destruct (accepted_descriptor f _ Hacc) as (e2 & -> & _ & _ & Hs & _).
    simpl in Hs.
    rewrite named_elib_sfile by (rewrite Hs; apply truthy_some, Hne).
    rewrite Hs. unfold lib_name. simpl str_of.
    destruct Hpath as [-> | ->]; [rewrite S1|rewrite S2]; reflexivity.
  - intros dir name path Hne0 Hn Hd Hpath out Hacc. subst out.
    destruct (stem_plain dir name Hn Hd) as [S1 S2].
    assert (Hne : path <> "").
    { destruct Hpath as [-> | ->]; [exact Hne0|].
      apply append_nonempty. discriminate. }
    destruct (accepted_descriptor f _ Hacc) as (e2 & -> & _ & _ & Hs & _).
    simpl in Hs.
    rewrite named_elib_sfile by (rewrite Hs; apply truthy_some, Hne).
    rewrite Hs. unfold lib_name. simpl str_of.
    destruct Hpath as [-> | ->]; [rewrite S1|rewrite S2]; reflexivity.
  - intros Hdoc out Hacc. subst out.
    destruct (accepted_descriptor f _ Hacc) as (e2 & -> & Hd & _ & Hs & _).
    simpl in Hs. apply named_elib_inline.
    + rewrite Hd. exact Hdoc.
    + rewrite Hs. reflexivity.
Qed.

(** X7.  A library name given to the binder does not survive either block:
    with a source file it is replaced by the name derived from the file,
    with a doc-string and no source file by "inline.so". *)
Lemma explicit_library_name_replaced
    (ename elib0 sfile slang : option string) (f : HostFunction)
    (rt : rt_state) (log : list event) :
  let out := FromExtern.__call__ f
               (mkWorld _ (FromExtern.__init__ ename elib0 sfile slang) rt log) in
  accepted out ->
  (truthy sfile = true ->
   elib (w_ext (snd out)) = Some (lib_name (str_of sfile))) /\
  (truthy (f_doc f) = true -> truthy sfile = false ->
   elib (w_ext (snd out)) = Some "inline.so").
Proof.
  intros out Hacc.
  subst out. destruct (accepted_descriptor f _ Hacc) as (e2 & -> & Hd & _ & Hs & _).
  simpl in Hs. split.
  - intros Ht. rewrite named_elib_sfile; rewrite Hs; auto.
  - intros Hdoc Ht. apply named_elib_inline; [rewrite Hd|rewrite Hs]; auto.
Qed.

(** With a doc-string the symbol name is the function's name, whatever
    name the binder was given. *)
Lemma inline_symbol_name
    (ename0 elib0 sfile slang : option string) (f : HostFunction)
    (rt : rt_state) (log : list event) :
  truthy (f_doc f) = true ->
  let out := FromExtern.__call__ f
               (mkWorld _ (FromExtern.__init__ ename0 elib0 sfile slang) rt log) in
  accepted out ->
  ename (w_ext (snd out)) = Some (f_name f).
Proof.
  intros Hdoc out Hacc.
  subst out. destruct (accepted_descriptor f _ Hacc) as (e2 & -> & Hd & Hp & _).
  rewrite named_ename_inline by (rewrite Hd; exact Hdoc). exact Hp.
Qed.

(** Without a doc-string and with a source file, a name given to the
    binder is kept. *)
Lemma source_file_symbol_name
    (name : string) (elib0 slang : option string) (path : string)
    (f : HostFunction) (rt : rt_state) (log : list event) :
  name <> "" -> path <> "" -> truthy (f_doc f) = false ->
  let out := FromExtern.__call__ f
               (mkWorld _ (FromExtern.__init__ (Some name) elib0 (Some path) slang)
                        rt log) in
  accepted out ->
  ename (w_ext (snd out)) = Some name.
Proof.
  intros Hn Hp Hdoc out Hacc.
  subst out. destruct (accepted_descriptor f _ Hacc)
    as (e2 & -> & Hd & _ & Hs & He & _).
  simpl in Hs, He.
  rewrite named_ename_sfile.
  - rewrite He, (truthy_some _ Hn). reflexivity.
  - rewrite Hd. exact Hdoc.
  - rewrite Hs. apply truthy_some, Hp.
Qed.

(** C9, amended.  With both a doc-string and a source file, the source-file
    block runs after the inline block and has the last word: the library
    name is the one derived from the file, never "inline.so". *)
Theorem source_file_precedence
    (ename elib0 slang : option string) (path : string) (f : HostFunction)
    (rt : rt_state) (log : list event) :
  path <> "" ->
  truthy (f_doc f) = true ->
  let out := FromExtern.__call__ f
               (mkWorld _ (FromExtern.__init__ ename elib0 (Some path) slang)
                        rt log) in
  accepted out ->
  elib (w_ext (snd out)) = Some ("lib" ++ stem path ++ ".so") /\
  elib (w_ext (snd out)) <> Some "inline.so".
Proof.
  intros Hp Hdoc out Hacc.
  subst out. destruct (accepted_descriptor f _ Hacc) as (e2 & -> & _ & _ & Hs & _).
  simpl in Hs.
  rewrite named_elib_sfile by (rewrite Hs; apply truthy_some, Hp).
  rewrite Hs. split; [reflexivity|]. discriminate.
Qed.

End Naming.

Lemma library_name_derivation_witness :
  only_dots "foo" = false /\
  truthy (f_doc Scripted.add_inline) = true /\
  (let out := FromExtern.__call__ Scripted.add
                (Scripted.start
                   (FromExtern.__init__ None None (Some "foo.chpl") (Some "Chapel"))
                   []) in
   accepted out /\ elib (w_ext (snd out)) = Some "libfoo.so") /\
  (let out := FromExtern.__call__ Scripted.add
                (Scripted.start
                   (FromExtern.__init__ None None (Some "/src/foo.chpl")
                                        (Some "Chapel")) []) in
   accepted out /\ elib (w_ext (snd out)) = Some "libfoo.so") /\
  (let out := FromExtern.__call__ Scripted.add
                (Scripted.start
                   (FromExtern.__init__ None None (Some "/src/foo")
                                        (Some "Chapel")) []) in
   accepted out /\ elib (w_ext (snd out)) = Some "libfoo.so") /\
  (let out := FromExtern.__call__ Scripted.add_inline
                (Scripted.start
                   (FromExtern.__init__ None None None (Some "Chapel")) []) in
   accepted out /\ elib (w_ext (snd out)) = Some "inline.so").
Proof.
  assert (Hdots : only_dots "foo" = false) by reflexivity.
  assert (Hne : "foo" <> "") by discriminate.
  assert (Hd : truthy (f_doc Scripted.add_inline) = true) by reflexivity.
  destruct (@library_name_derivation Scripted.runtime None (Some "Chapel")
              Scripted.add [] []) as (Hext & Hplain & _).
  destruct (@library_name_derivation Scripted.runtime None (Some "Chapel")
              Scripted.add_inline [] []) as (_ & _ & Hinline).
  split; [exact Hdots|]. split; [exact Hd|].
  split; [|split; [|split]].
  - assert (Hacc : accepted
                     (FromExtern.__call__ Scripted.add
                        (Scripted.start
                           (FromExtern.__init__ None None (Some "foo.chpl")
                                                (Some "Chapel")) [])))
      by reflexivity.
    split; [exact Hacc|].
    exact (Hext "" "foo" "chpl" "foo.chpl" eq_refl eq_refl eq_refl Hdots
                (or_introl eq_refl) Hacc).
  - assert (Hacc : accepted
                     (FromExtern.__call__ Scripted.add
                        (Scripted.start
                           (FromExtern.__init__ None None (Some "/src/foo.chpl")
                                                (Some "Chapel")) [])))
      by reflexivity.
    split; [exact Hacc|].
    exact (Hext "/src" "foo" "chpl" "/src/foo.chpl" eq_refl eq_refl eq_refl
                Hdots (or_intror eq_refl) Hacc).
  - assert (Hacc : accepted
                     (FromExtern.__call__ Scripted.add
                        (Scripted.start
                           (FromExtern.__init__ None None (Some "/src/foo")
                                                (Some "Chapel")) [])))
      by reflexivity.
    split; [exact Hacc|].
    exact (Hplain "/src" "foo" "/src/foo" Hne eq_refl eq_refl
                  (or_intror eq_refl) Hacc).
  - assert (Hacc : accepted
                     (FromExtern.__call__ Scripted.add_inline
                        (Scripted.start
                           (FromExtern.__init__ None None None (Some "Chapel"))
                           [])))
      by reflexivity.
    split; [exact Hacc|].
    exact (Hinline Hd Hacc).
Defined.

(** C8 on the code: the inline block assigns the function's name to [ename]
    without looking at it, so the name given to the binder is lost; the
    source-file block, on the same binder and without a doc-string, keeps
    it. *)
Theorem inline_discards_symbol_name :
  let binder := FromExtern.__init__ (Some "c_add") None None (Some "C") in
  let out := FromExtern.__call__ Scripted.add_inline (Scripted.start binder []) in
  accepted out /\
  ename (w_ext (snd out)) = Some "add" /\
  ename (w_ext (snd out)) <> Some "c_add" /\
  let binder' := FromExtern.__init__ (Some "c_add") None (Some "add.c") (Some "C") in
  let out' := FromExtern.__call__ Scripted.add (Scripted.start binder' []) in
  accepted out' /\ ename (w_ext (snd out')) = Some "c_add".
Proof. repeat split. discriminate. Qed.

Lemma source_file_precedence_witness :
  "add.c" <> "" /\
  truthy (f_doc Scripted.add_inline) = true /\
  let out := FromExtern.__call__ Scripted.add_inline
               (Scripted.start
                  (FromExtern.__init__ None None (Some "add.c") (Some "C")) []) in
  accepted out /\
  elib (w_ext (snd out)) = Some ("lib" ++ stem "add.c" ++ ".so") /\
  elib (w_ext (snd out)) <> Some "inline.so".
Proof.
  assert (Hp : "add.c" <> "") by discriminate.
  assert (Hd : truthy (f_doc Scripted.add_inline) = true) by reflexivity.
  assert (Hacc : accepted
                   (FromExtern.__call__ Scripted.add_inline
                      (Scripted.start
                         (FromExtern.__init__ None None (Some "add.c") (Some "C"))
                         [])))
    by reflexivity.
  split; [exact Hp|]. split; [exact Hd|]. split; [exact Hacc|].
  exact (@source_file_precedence Scripted.runtime None None (Some "C") "add.c"
           Scripted.add_inline [] [] Hp Hd Hacc).
Defined.

(** C9 as stated fails: a function with a doc-string bound with a source
    file gets the library name of the file. *)
Lemma inline_precedence_counterexample :
  let out := FromExtern.__call__ Scripted.add_inline
               (Scripted.start
                  (FromExtern.__init__ None None (Some "add.c") (Some "C")) []) in
  accepted out /\
  truthy (doc (w_ext (snd out))) = true /\
  elib (w_ext (snd out)) = Some "libadd.so" /\
  ~ (elib (w_ext (snd out)) = Some "inline.so").
Proof. repeat split. discriminate. Qed.

(* ===================================================================== *)
(** ** The bound call                                                     *)
(* ===================================================================== *)

Section BoundCall.
Context `{Runtime}.


(** [wrapped_f] unfolded into its phases. *)
Lemma wrapped_f_phases (actuals : list value) (w : World) :
  FromExtern.wrapped_f actuals w =
  let e := w_ext w in
  if list_ne (call_types actuals) (atypes e)
  then (Raise (unsupported_arg_types (call_types actuals) (atypes e)), w)
  else
    match efunc e with
    | Some h =>
        let (r, rt') := native_call h actuals (w_rt w) in
        (r, mkWorld _ e rt' (w_log w ++ [EvCall h actuals])%list)
    | None =>
        let (answer, rt') := rt_materialize e (w_rt w) in
        let log' := (w_log w ++ [EvMaterialize e answer])%list in
        match answer with
        | None => (Raise failed_materializing, mkWorld _ e rt' log')
        | Some h0 =>
            match typemap_getitems (atypes e) with
            | Raise x => (Raise x, mkWorld _ e rt' log')
            | Return ats =>
                match typemap_getitem (rtype e) with
                | Raise x => (Raise x, mkWorld _ e rt' log')
                | Return rt =>
                    let h := mkHandle (h_id h0) ats rt in
                    let (r, rt'') := native_call h actuals rt' in
                    (r, mkWorld _ (set_efunc (Some h) e) rt''
                                (log' ++ [EvCall h actuals])%list)
                end
            end
        end
    end.
Proof.
  destruct w as [e rt log].
  unfold FromExtern.wrapped_f, FromExtern._type_check,
    FromExtern.runtime_materialize, FromExtern.handle_call, call_types,
    bind, assign, self_extern, ret, raise, lift, when; simpl.
  destruct (list_ne _ _); simpl; [reflexivity|].
  destruct (efunc e) as [h|] eqn:Ef; simpl.
  - rewrite Ef. reflexivity.
  - destruct (rt_materialize e rt) as [[h0|] rt']; simpl; [|reflexivity].
    destruct (typemap_getitems (atypes e)) as [ats|x]; simpl; [|reflexivity].
    destruct (typemap_getitem (rtype e)) as [c|x]; simpl; reflexivity.
Qed.

Lemma typemap_getitem_ok (k : value) :
  in_typemap k = true -> exists c, typemap_getitem k = Return c.
Proof.
  unfold in_typemap, typemap_getitem.
  destruct (dict_get typemap k) as [c|]; [eauto|discriminate].
Qed.

Lemma typemap_getitems_ok (l : list value) :
  Forall (fun t => in_typemap t = true) l ->
  exists cs, typemap_getitems l = Return cs.
Proof.
  induction 1 as [|t l Ht _ [cs IH]]; simpl; [eauto|].
  destruct (typemap_getitem_ok t Ht) as [c ->]. rewrite IH. eauto.
Qed.

Lemma materializations_app (l1 l2 : list event) :
  materializations (l1 ++ l2) = (materializations l1 ++ materializations l2)%list.
Proof. apply flat_map_app. Qed.

Lemma successes_app (l1 l2 : list (option Handle)) :
  successes (l1 ++ l2) = (successes l1 + successes l2)%nat.
Proof. unfold successes. rewrite filter_app, length_app. reflexivity. Qed.

(** A call whose argument types are not the declared ones changes
    nothing. *)
Lemma wrapped_f_mismatch (actuals : list value) (w : World) :
  call_types actuals <> atypes (w_ext w) ->
  FromExtern.wrapped_f actuals w =
  (Raise (unsupported_arg_types (call_types actuals) (atypes (w_ext w))), w).
Proof.
  intros NE. rewrite wrapped_f_phases. cbv zeta.
  apply list_ne_true in NE. rewrite NE. reflexivity.
Qed.

Lemma positional_difference (l1 l2 : list value) :
  (List.length l1 <> List.length l2 \/
   exists i x y, nth_error l1 i = Some x /\ nth_error l2 i = Some y /\ x <> y) ->
  l1 <> l2.
Proof.
  intros [Hlen | (i & x & y & H1 & H2 & NE)] E; subst l2.
  - apply Hlen. reflexivity.
  - rewrite H1 in H2. inversion H2. contradiction.
Qed.

(** C3.  A call whose runtime argument types differ from [atypes] in
    length or at some position raises the type-mismatch error and leaves
    the world as it was: the runtime sees no materialize, and the handle
    slot of the descriptor is untouched. *)
Theorem type_check_enforcement (actuals : list value) (w : World) :
  (List.length (call_types actuals) <> List.length (atypes (w_ext w)) \/
   exists i x y,
     nth_error (call_types actuals) i = Some x /\
     nth_error (atypes (w_ext w)) i = Some y /\ x <> y) ->
  let out := FromExtern.wrapped_f actuals w in
  (exists x, fst out = Raise x /\ TypeMismatchError x) /\
  snd out = w /\
  materializations (w_log (snd out)) = materializations (w_log w) /\
  efunc (w_ext (snd out)) = efunc (w_ext w).
Proof.
  intros Hdiff out. subst out.
  rewrite (wrapped_f_mismatch actuals w (positional_difference _ _ Hdiff)).
  simpl. repeat split.
  eexists. split; [reflexivity|]. unfold TypeMismatchError. eauto.
Qed.


Lemma ancestors_above (c a : pyclass) :
  In a (proper_ancestors c) -> (depth a < depth c)%nat.
Proof.
  induction c; simpl; intros Hin;
    repeat (destruct Hin as [<- | Hin]; [simpl; lia|]);
    try contradiction.
  specialize (IHc Hin). lia.
Qed.

Lemma strict_subclass_neq (c d : pyclass) :
  strict_subclass c d = true -> c <> d.
Proof.
  unfold strict_subclass. intros Hs E. subst d.
  apply existsb_exists in Hs. destruct Hs as (a & Hin & Ha).
  destruct (pyclass_eq_dec a c) as [->|]; [|discriminate].
  apply ancestors_above in Hin. lia.
Qed.

(** C10.  The comparison is equality of classes: an argument whose class
    is a strict subclass of the class declared at its position is refused
    with the type-mismatch error, the world left as it was. *)
Theorem exact_type_equality
    (actuals : list value) (w : World) (i : nat) (a : value) (d : pyclass) :
  nth_error actuals i = Some a ->
  nth_error (atypes (w_ext w)) i = Some (VClass d) ->
  strict_subclass (type_of a) d = true ->
  let out := FromExtern.wrapped_f actuals w in
  (exists x, fst out = Raise x /\ TypeMismatchError x) /\ snd out = w.
Proof.
  intros Ha Hd Hsub out. subst out.
  rewrite wrapped_f_mismatch.
  - simpl. split; [|reflexivity].
    eexists. split; [reflexivity|]. unfold TypeMismatchError. eauto.
  - apply positional_difference. right.
    exists i, (VClass (type_of a)), (VClass d). repeat split; auto.
    + unfold call_types.
      exact (map_nth_error (fun arg => VClass (type_of arg)) i actuals Ha).
    + intros E. inversion E. eapply strict_subclass_neq; eauto.
Qed.

End BoundCall.

Lemma type_check_enforcement_witness :
  let w := snd (FromExtern.__call__ Scripted.add
                  (Scripted.start Samples.plain [Scripted.raw 7])) in
  let actuals := [VInt 2; VStr "3"] in
  (exists i x y,
      nth_error (call_types actuals) i = Some x /\
      nth_error (atypes (w_ext w)) i = Some y /\ x <> y) /\
  let out := FromExtern.wrapped_f actuals w in
  (exists x, fst out = Raise x /\ TypeMismatchError x) /\
  snd out = w /\
  materializations (w_log (snd out)) = materializations (w_log w) /\
  efunc (w_ext (snd out)) = efunc (w_ext w).
Proof.
  intros w actuals.
  assert (Hdiff : exists i x y,
             nth_error (call_types actuals) i = Some x /\
             nth_error (atypes (w_ext w)) i = Some y /\ x <> y).
  { exists 1%nat, (VClass CStr), (VClass CInt).
    split; [reflexivity|]. split; [reflexivity|]. discriminate. }
  split; [exact Hdiff|].
  exact (@type_check_enforcement Scripted.runtime actuals w (or_intror Hdiff)).
Defined.

(** [True] passed where [int] is declared. *)
Lemma exact_type_equality_witness :
  let w := snd (FromExtern.__call__ Scripted.add
                  (Scripted.start Samples.plain [Scripted.raw 7])) in
  let actuals := [VBool true; VInt 3] in
  strict_subclass (type_of (VBool true)) CInt = true /\
  let out := FromExtern.wrapped_f actuals w in
  (exists x, fst out = Raise x /\ TypeMismatchError x) /\ snd out = w.
Proof.
  intros w actuals.
  assert (Hsub : strict_subclass (type_of (VBool true)) CInt = true)
    by reflexivity.
  split; [exact Hsub|].
  exact (@exact_type_equality Scripted.runtime actuals w 0 (VBool true) CInt
           eq_refl eq_refl Hsub).
Defined.

(* ===================================================================== *)
(** ** Lazy materialization                                               *)
(* ===================================================================== *)

Section Laziness.
Context `{Runtime}.


(** With a handle registered, a call never asks the runtime for one, and
    calls that handle when the types agree. *)
Lemma wrapped_f_cached (actuals : list value) (w : World) (h : Handle) :
  efunc (w_ext w) = Some h ->
  let w' := snd (FromExtern.wrapped_f actuals w) in
  w_ext w' = w_ext w /\
  materializations (w_log w') = materializations (w_log w) /\
  (call_types actuals = atypes (w_ext w) ->
   w_log w' = (w_log w ++ [EvCall h actuals])%list).
Proof.
  intros Ef w'. subst w'. rewrite wrapped_f_phases. cbv zeta.
  destruct (list_ne (call_types actuals) (atypes (w_ext w))) eqn:Hne.
  - simpl. repeat split. intros E. apply list_ne_true in Hne. contradiction.
  - rewrite Ef. destruct (native_call h actuals (w_rt w)) as [r rt'].
    simpl. repeat split.
    rewrite materializations_app. simpl. apply app_nil_r.
Qed.

(** Without a handle, a call whose types agree asks the runtime first;
    when the answer is a false value the call raises and the descriptor
    is as before. *)
Lemma wrapped_f_absent (actuals : list value) (w : World) :
  efunc (w_ext w) = None ->
  call_types actuals = atypes (w_ext w) ->
  let out := FromExtern.wrapped_f actuals w in
  exists answer rest,
    w_log (snd out)
    = (w_log w ++ EvMaterialize (w_ext w) answer :: rest)%list /\
    answer = fst (rt_materialize (w_ext w) (w_rt w)) /\
    (answer = None ->
     fst out = Raise failed_materializing /\
     w_ext (snd out) = w_ext w /\ rest = []).
Proof.
  intros Ef Hty out. subst out. rewrite wrapped_f_phases. cbv zeta.
  assert (Hne : list_ne (call_types actuals) (atypes (w_ext w)) = false).
  { destruct (list_ne _ _) eqn:E; [|reflexivity].
    apply list_ne_true in E. contradiction. }
  rewrite Hne, Ef.
  destruct (rt_materialize (w_ext w) (w_rt w)) as [[h0|] rt'].
  - exists (Some h0).
    destruct (typemap_getitems (atypes (w_ext w))) as [ats|x].
    + destruct (typemap_getitem (rtype (w_ext w))) as [c|x].
      * destruct (native_call _ actuals rt') as [r rt''].
        eexists. simpl. rewrite <- app_assoc. simpl.
        split; [reflexivity|]. split; [reflexivity|]. discriminate.
      * exists []. simpl.
        split; [reflexivity|]. split; [reflexivity|]. discriminate.
    + exists []. simpl.
      split; [reflexivity|]. split; [reflexivity|]. discriminate.
  - exists None, []. simpl. repeat split.
Qed.

(** One call, when the declaration is in order: the declaration is kept,
    a registered handle stays, and the runtime has answered at most once,
    with a handle only if that handle is now registered. *)
Lemma wrapped_f_step (actuals : list value) (w : World) :
  declared_ok (w_ext w) ->
  let w' := snd (FromExtern.wrapped_f actuals w) in
  declared_ok (w_ext w') /\
  exists evs,
    w_log w' = (w_log w ++ evs)%list /\
    match efunc (w_ext w) with
    | Some h =>
        efunc (w_ext w') = Some h /\ materializations evs = []
    | None =>
        (efunc (w_ext w') = None /\ successes (materializations evs) = 0%nat)
        \/ (exists h, efunc (w_ext w') = Some h /\
                      successes (materializations evs) = 1%nat)
    end.
Proof.
  intros [Hat Hrt] w'. subst w'. rewrite wrapped_f_phases. cbv zeta.
  destruct (list_ne (call_types actuals) (atypes (w_ext w))).
  - simpl. split; [split; assumption|].
    exists []. rewrite app_nil_r. split; [reflexivity|].
    destruct (efunc (w_ext w)); [split; reflexivity|left; split; reflexivity].
  - destruct (efunc (w_ext w)) as [h|] eqn:Ef.
    + destruct (native_call h actuals (w_rt w)) as [r rt'].
      simpl. split; [split; assumption|].
      eexists. split; [reflexivity|]. split; [exact Ef|reflexivity].
    + destruct (rt_materialize (w_ext w) (w_rt w)) as [[h0|] rt'].
      * destruct (typemap_getitems_ok _ Hat) as [ats ->].
        destruct (typemap_getitem_ok _ Hrt) as [c ->].
        destruct (native_call _ actuals rt') as [r rt''].
        simpl. split; [split; assumption|].
        eexists. rewrite <- app_assoc. split; [reflexivity|].
        right. eexists. split; reflexivity.
      * simpl. split; [split; assumption|].
        eexists. split; [reflexivity|]. left. rewrite Ef.
        split; reflexivity.
Qed.

(** Over any sequence of calls the runtime hands out at most one handle,
    and none once a handle is registered. *)
Lemma calls_materialize_once (l : list (list value)) :
  forall w : World,
    declared_ok (w_ext w) ->
    exists evs,
      w_log (calls l w) = (w_log w ++ evs)%list /\
      match efunc (w_ext w) with
      | Some h =>
          efunc (w_ext (calls l w)) = Some h /\
          materializations evs = []
      | None => (successes (materializations evs) <= 1)%nat
      end.
Proof.
  induction l as [|actuals l IH]; intros w Hok; simpl.
  - exists []. rewrite app_nil_r. split; [reflexivity|].
    destruct (efunc (w_ext w)); [split; reflexivity|].
    unfold successes. simpl. lia.
  - destruct (wrapped_f_step actuals w Hok) as (Hok' & evs1 & Hlog1 & Hstep).
    destruct (IH _ Hok') as (evs2 & Hlog2 & Hrest).
    exists (evs1 ++ evs2)%list. rewrite Hlog2, Hlog1, app_assoc.
    split; [reflexivity|].
    rewrite materializations_app.
    destruct (efunc (w_ext w)) as [h|].
    + destruct Hstep as [Ef' Hm1]. rewrite Ef' in Hrest.
      destruct Hrest as [Ef'' Hm2]. rewrite Hm1, Hm2. split; auto.
    + rewrite successes_app.
      destruct Hstep as [[Ef' Hs1] | (h & Ef' & Hs1)]; rewrite Ef' in Hrest.
      * lia.
      * destruct Hrest as [_ Hm2]. rewrite Hm2. unfold successes at 2.
        simpl. lia.
Qed.

(** C2, amended.  After an accepted application of a freshly built binder
    the handle is absent.  In every state reached from there by a sequence
    of calls: a call with a handle registered keeps it, does not ask the
    runtime for one, and calls it when its argument types agree; a call
    without a handle and with agreeing argument types asks the runtime,
    and when the answer is a false value it raises and the handle stays
    absent, so that the next such call asks again.  When the declared
    return type is a key of [typemap], the runtime hands out at most one
    handle over any sequence of calls. *)
Theorem lazy_materialization
    (ename elib sfile slang : option string) (f : HostFunction)
    (rt : rt_state) (log : list event) :
  let out := FromExtern.__call__ f
               (mkWorld _ (FromExtern.__init__ ename elib sfile slang) rt log) in
  let w := snd out in
  accepted out ->
  efunc (w_ext w) = None /\
  (forall (l : list (list value)) (actuals : list value),
      let w1 := calls l w in
      let out2 := FromExtern.wrapped_f actuals w1 in
      (forall h, efunc (w_ext w1) = Some h ->
                 efunc (w_ext (snd out2)) = Some h /\
                 materializations (w_log (snd out2))
                 = materializations (w_log w1) /\
                 (call_types actuals = atypes (w_ext w1) ->
                  w_log (snd out2) = (w_log w1 ++ [EvCall h actuals])%list)) /\
      (efunc (w_ext w1) = None ->
       call_types actuals = atypes (w_ext w1) ->
       exists answer rest,
         w_log (snd out2)
         = (w_log w1 ++ EvMaterialize (w_ext w1) answer :: rest)%list /\
         (answer = None ->
          fst out2 = Raise failed_materializing /\
          efunc (w_ext (snd out2)) = None))) /\
  (in_typemap (rtype (w_ext w)) = true ->
   forall l : list (list value),
   exists evs,
     w_log (calls l w) = (w_log w ++ evs)%list /\
     (successes (materializations evs) <= 1)%nat).
Proof.
  intros out w Hacc.
  assert (Hnone : efunc (w_ext w) = None).
  { subst w out.
    destruct (accepted_descriptor f _ Hacc)
      as (e2 & -> & _ & _ & _ & _ & _ & He).
    destruct (named_fields e2) as (_ & _ & _ & _ & _ & _ & -> & _).
    exact He. }
  split; [exact Hnone|]. split.
  - intros l actuals w1 out2. split.
    + intros h Eh.
      destruct (wrapped_f_cached actuals w1 h Eh) as (Hext & Hm & Hcall).
      fold out2 in Hext, Hm, Hcall. rewrite Hext. auto.
    + intros En Hty.
      destruct (wrapped_f_absent actuals w1 En Hty)
        as (answer & rest & Hlog & _ & Hfail).
      fold out2 in Hlog, Hfail. exists answer, rest.
      split; [exact Hlog|].
      intros Ea. destruct (Hfail Ea) as (Hr & Hext & _).
      rewrite Hext. auto.
  - intros Hrt l.
    assert (Hok : declared_ok (w_ext w)).
    { split; [|exact Hrt]. subst w.
      apply (accepted_atypes_supported f _ Hacc). }
    destruct (calls_materialize_once l w Hok) as (evs & Hlog & Hm).
    rewrite Hnone in Hm. eauto.
Qed.

End Laziness.

Lemma lazy_materialization_witness :
  let out := FromExtern.__call__ Scripted.add
               (Scripted.start
                  (FromExtern.__init__ None None (Some "add.c") (Some "C"))
                  [None; Scripted.raw 7]) in
  let w := snd out in
  accepted out /\
  efunc (w_ext w) = None /\
  in_typemap (rtype (w_ext w)) = true /\
  (forall l : list (list value),
      exists evs,
        w_log (calls l w) = (w_log w ++ evs)%list /\
        (successes (materializations evs) <= 1)%nat) /\
  fst (FromExtern.wrapped_f [VInt 2; VInt 3] w) = Raise failed_materializing /\
  fst (FromExtern.wrapped_f [VInt 2; VInt 3] (calls [[VInt 2; VInt 3]] w))
  = Return (VInt 5) /\
  materializations
    (w_log (calls [[VInt 2; VInt 3]; [VInt 2; VInt 3]; [VInt 4; VInt 5]] w))
  = [None; Scripted.raw 7].
Proof.
  intros out w.
  assert (Hacc : accepted out) by reflexivity.
  assert (Hrt : in_typemap (rtype (w_ext w)) = true) by reflexivity.
  destruct (@lazy_materialization Scripted.runtime None None (Some "add.c")
              (Some "C") Scripted.add [None; Scripted.raw 7] [] Hacc)
    as (Habsent & _ & Honce).
  split; [exact Hacc|]. split; [exact Habsent|]. split; [exact Hrt|].
  split; [exact (Honce Hrt)|].
  repeat split.
Defined.

(** C2 as stated fails in two places.  After a failed materialization a call
    whose argument types do not agree stops at the type check and does not
    ask the runtime again.  And a declaration whose return type is not a key
    of [typemap] never gets its handle registered, so that every call with
    agreeing types has the runtime materialize the function anew. *)
Lemma lazy_materialization_counterexample :
  (let w := snd (FromExtern.__call__ Scripted.add
                   (Scripted.start Samples.plain [])) in
   let w1 := snd (FromExtern.wrapped_f [VInt 2; VInt 3] w) in
   let out2 := FromExtern.wrapped_f [VBool true; VInt 3] w1 in
   materializations (w_log w1) = [None] /\
   efunc (w_ext w1) = None /\
   materializations (w_log (snd out2)) = materializations (w_log w1) /\
   ~ (exists answer rest,
         w_log (snd out2)
         = (w_log w1 ++ EvMaterialize (w_ext w1) answer :: rest)%list)) /\
  (let w := snd (FromExtern.__call__ Samples.returns_list
                   (Scripted.start Samples.plain
                                   [Scripted.raw 7; Scripted.raw 8])) in
   let w2 := calls [[VInt 1]; [VInt 1]] w in
   materializations (w_log w2) = [Scripted.raw 7; Scripted.raw 8] /\
   efunc (w_ext w2) = None /\
   ~ (successes (materializations (w_log w2)) <= 1)%nat).
Proof.
  split.
  - intros w w1 out2.
    split; [reflexivity|]. split; [reflexivity|]. split; [reflexivity|].
    intros (answer & rest & E).
    apply (f_equal (@List.length event)) in E.
    rewrite length_app in E. simpl in E. lia.
  - intros w w2.
    split; [reflexivity|]. split; [reflexivity|].
    change (successes (materializations (w_log w2))) with 2%nat. lia.
Qed.

(* ===================================================================== *)
(** ** Further properties of the binding                                  *)
(* ===================================================================== *)

Section BindingMore.
Context `{Runtime}.

(** X1.  An accepted application shows the runtime exactly one thing, a hint,
    issued after the names have been derived: the hinted descriptor is the
    final one, and no materialization is requested at binding. *)
Theorem hint_after_naming (f : HostFunction) (w : World) :
  let out := FromExtern.__call__ f w in
  accepted out ->
  w_log (snd out) = (w_log w ++ [EvHint (w_ext (snd out))])%list /\
  w_rt (snd out) = rt_hint (w_ext (snd out)) (w_rt w) /\
  materializations (w_log (snd out)) = materializations (w_log w).
Proof.
  intros out Hacc. subst out.
  destruct (accepted_inv f w Hacc) as (r & _ & _ & _ & E).
  rewrite E. simpl. repeat split.
  rewrite materializations_app. simpl. apply app_nil_r.
Qed.

Lemma bind_defaults_missing (ps : list (string * option value)) :
  (exists p, In p ps /\ snd p = None) -> bind_defaults ps = None.
Proof.
  induction ps as [|[n [d|]] ps IH]; intros (p & Hin & Hp); simpl.
  - contradiction.
  - destruct Hin as [<- | Hin]; [discriminate|].
    rewrite IH; [reflexivity|eauto].
  - reflexivity.
Qed.

(** X2.  A function with a parameter that has no default cannot be bound:
    the call without arguments raises the interpreter's TypeError before
    the validation is reached.  The names are by then stored in the
    descriptor, the return type is not, and the runtime has seen
    nothing. *)
Theorem missing_default_stops_binding (f : HostFunction) (w : World) :
  (exists p, In p (f_params f) /\ snd p = None) ->
  let out := FromExtern.__call__ f w in
  fst out = Raise (arity_error f) /\
  anames (w_ext (snd out)) = map fst (f_params f) /\
  rtype (w_ext (snd out)) = rtype (w_ext w) /\
  w_log (snd out) = w_log w /\ w_rt (snd out) = w_rt w.
Proof.
  intros Hp out. subst out. rewrite call_phases. cbv zeta.
  unfold call0. rewrite (bind_defaults_missing _ Hp). simpl.
  destruct (inferred_fields f (w_ext w))
    as (_ & _ & _ & Hn & _ & Hr & _).
  repeat split; assumption.
Qed.

(** X3.  The binder object keeps the argument types of its last application
    when the next function declares none: applied to a function with
    parameters and then to one without, it raises the missing-declaration
    error on the second, although that function declares nothing wrong. *)
Theorem reused_binder_keeps_types
    (g f : HostFunction) (w : World) (r : value) :
  accepted (FromExtern.__call__ g w) ->
  f_params g <> [] ->
  f_params f = [] ->
  f_body f [] = Return r ->
  let w1 := snd (FromExtern.__call__ g w) in
  let out := FromExtern.__call__ f w1 in
  fst out = Raise missing_declaration /\
  atypes (w_ext (snd out)) = atypes (w_ext w1) /\
  atypes (w_ext w1) <> [].
Proof.
  intros Hacc Hg Hf Hbody w1 out.
  assert (Hne : atypes (w_ext w1) <> []).
  { subst w1. destruct (accepted_inv g w Hacc) as (r0 & _ & Hlen & _ & E).
    rewrite E. simpl snd. simpl w_ext.
    destruct (named_fields (set_rtype r0 (inferred g (w_ext w))))
      as (_ & _ & _ & _ & -> & _).
    intros Ha. rewrite Ha in Hlen. simpl in Hlen.
    change (anames (set_rtype r0 (inferred g (w_ext w))))
      with (anames (inferred g (w_ext w))) in Hlen.
    destruct (inferred_fields g (w_ext w)) as (_ & _ & _ & Hn & _).
    rewrite Hn, length_map in Hlen.
    destruct (f_params g); [contradiction|discriminate]. }
  assert (Hcall : call0 f = Return r).
  { unfold call0. rewrite Hf. exact Hbody. }
  destruct (inferred_fields f (w_ext w1)) as (_ & _ & _ & Hn & Ha & _).
  rewrite Hf in Hn, Ha. simpl in Hn, Ha.
  destruct (call_cases f w1 r Hcall)
    as [(Hlen & _ & _) | [(_ & E) | (x & Hlen & _ & _)]]; cbv zeta in *.
  - exfalso.
    change (List.length (atypes (inferred f (w_ext w1)))
            = List.length (anames (inferred f (w_ext w1)))) in Hlen.
    rewrite Hn, Ha in Hlen. destruct (atypes (w_ext w1)); [auto|discriminate].
  - subst out. rewrite E. simpl. auto.
  - exfalso.
    change (List.length (atypes (inferred f (w_ext w1)))
            = List.length (anames (inferred f (w_ext w1)))) in Hlen.
    rewrite Hn, Ha in Hlen. destruct (atypes (w_ext w1)); [auto|discriminate].
Qed.

Lemma binding_fields_kept (f : HostFunction) (w : World) :
  let d := w_ext (snd (FromExtern.__call__ f w)) in
  efunc d = efunc (w_ext w) /\
  sfile d = sfile (w_ext w) /\
  slang d = slang (w_ext w).
Proof.
  cbv zeta. rewrite call_phases. cbv zeta.
  destruct (inferred_fields f (w_ext w))
    as (_ & _ & _ & _ & _ & _ & He & _ & _ & Hs & Hl).
  destruct (call0 f) as [r|x]; [|simpl; auto].
  destruct (negb _); [simpl; auto|].
  destruct (FromExtern.check_supported _ _ _) as [[]|x]; [|simpl; auto].
  simpl snd. simpl w_ext.
  destruct (named_fields (set_rtype r (inferred f (w_ext w))))
    as (_ & _ & _ & _ & _ & _ & -> & -> & ->).
  simpl. auto.
Qed.

(** X4.  Applying the binder never writes the handle, the source file or
    the source language of the descriptor, however the application ends. *)
Theorem binding_keeps_handle_and_source (f : HostFunction) (w : World) :
  let d := w_ext (snd (FromExtern.__call__ f w)) in
  efunc d = efunc (w_ext w) /\
  sfile d = sfile (w_ext w) /\
  slang d = slang (w_ext w).
Proof. exact (binding_fields_kept f w). Qed.

Lemma check_supported_first (a : string) (t : value)
    (names2 : list string) (types2 : list value) :
  in_typemap t = false ->
  forall (names1 : list string) (types1 pre : list value),
    List.length names1 = List.length types1 ->
    Forall (fun ty => in_typemap ty = true) types1 ->
    FromExtern.check_supported (List.length pre)
      (names1 ++ a :: names2) (pre ++ types1 ++ t :: types2)
    = Raise (unsupported_type t a).
Proof.
  intros Hbad. induction names1 as [|n names1 IH];
    intros [|ty types1] pre Hlen Hok; simpl in Hlen; try discriminate.
  - simpl. rewrite nth_error_app2, Nat.sub_diag by lia. simpl.
    rewrite Hbad. reflexivity.
  - inversion Hok as [|? ? Hty Hok']; subst. simpl.
    rewrite nth_error_app2, Nat.sub_diag by lia. simpl. rewrite Hty. simpl.
    specialize (IH types1 (pre ++ [ty])%list ltac:(lia) Hok').
    rewrite length_app in IH. simpl in IH.
    rewrite Nat.add_1_r, <- app_assoc in IH. exact IH.
Qed.

Lemma split_params (ps1 ps2 : list (string * option value)) :
  map fst (ps1 ++ ps2) = (map fst ps1 ++ map fst ps2)%list /\
  the_defaults (ps1 ++ ps2) = (the_defaults ps1 ++ the_defaults ps2)%list.
Proof.
  split; [apply map_app|].
  induction ps1 as [|[n [d|]] ps1 IH]; simpl; congruence.
Qed.

(** X5.  When several parameters are declared with unsupported types, the
    declaration error names the first of them in declaration order,
    together with its type, provided that type can be hashed (an unhashable
    one makes the membership test itself raise, which is outside this
    statement). *)
Theorem first_unsupported_reported
    (ename elib sfile slang : option string) (f : HostFunction)
    (rt : rt_state) (log : list event) (r : value)
    (ps1 ps2 : list (string * option value)) (a : string) (t : value) :
  call0 f = Return r ->
  f_params f = (ps1 ++ (a, Some t) :: ps2)%list ->
  Forall (fun p => exists d, snd p = Some d /\ in_typemap d = true) ps1 ->
  hashable t = true ->
  in_typemap t = false ->
  let out := FromExtern.__call__ f
               (mkWorld _ (FromExtern.__init__ ename elib sfile slang) rt log) in
  fst out = Raise (unsupported_type t a).
Proof.
  intros Hcall Hps Hok _ Hbad out.
  set (b := FromExtern.__init__ ename elib sfile slang).
  assert (Hat : atypes (inferred f b) = the_defaults (f_params f))
    by (apply inferred_atypes_fresh; reflexivity).
  destruct (inferred_fields f b) as (_ & _ & _ & Han & _).
  assert (Hd1 : List.length (map fst ps1) = List.length (the_defaults ps1) /\
                Forall (fun ty => in_typemap ty = true) (the_defaults ps1)).
  { clear - Hok. induction Hok as [|[n o] ps1 (d & Hd & Hin) _ [IH1 IH2]];
      simpl; [auto|].
    simpl in Hd. subst o. simpl. split; [congruence|]. constructor; auto. }
  destruct Hd1 as [Hl1 Hf1].
  destruct (split_params ps1 ((a, Some t) :: ps2)) as [Hn Hd].
  pose proof (check_supported_first a t (map fst ps2) (the_defaults ps2) Hbad
                (map fst ps1) (the_defaults ps1) [] Hl1 Hf1) as Hchk.
  simpl in Hchk.
  destruct (call_cases f (mkWorld _ b rt log) r Hcall)
    as [(_ & E2 & _) | [(NE & _) | (x & _ & E2 & E)]]; cbv zeta in *;
    simpl w_ext in *.
  - exfalso.
    change (FromExtern.check_supported 0 (anames (inferred f b))
              (atypes (inferred f b)) = Return tt) in E2.
    rewrite Hat, Han, Hps, Hn, Hd in E2. simpl in E2. congruence.
  - exfalso. apply NE.
    change (List.length (atypes (inferred f b))
            = List.length (anames (inferred f b))).
    pose proof (fresh_counts_agree ename elib sfile slang f r Hcall) as Hc.
    cbv zeta in Hc. fold b in Hc. auto.
  - subst out. fold b. rewrite E. simpl fst.
    change (FromExtern.check_supported 0 (anames (inferred f b))
              (atypes (inferred f b)) = Raise x) in E2.
    rewrite Hat, Han, Hps, Hn, Hd in E2. simpl in E2. congruence.
Qed.

End BindingMore.

(* ===================================================================== *)
(** ** Further properties of the naming                                   *)
(* ===================================================================== *)

Section NamingMore.
Context `{Runtime}.
Import os_path.

Lemma named_neither (e : Extern) :
  truthy (doc e) = false -> truthy (sfile e) = false -> named e = e.
Proof. intros Hd Hs. unfold named. rewrite Hd, Hs. reflexivity. Qed.

(** X6.  Without a doc-string and without a source file no name is derived:
    the symbol name and the library name of an accepted declaration are
    what the binder was given, [None] included; the function's own name is
    not taken as the symbol name. *)
Theorem naming_without_source
    (ename0 elib0 sfile0 slang : option string) (f : HostFunction)
    (rt : rt_state) (log : list event) :
  truthy (f_doc f) = false ->
  truthy sfile0 = false ->
  let out := FromExtern.__call__ f
               (mkWorld _ (FromExtern.__init__ ename0 elib0 sfile0 slang) rt log) in
  accepted out ->
  ename (w_ext (snd out)) = ename0 /\ elib (w_ext (snd out)) = elib0.
Proof.
  intros Hdoc Hsf out Hacc. subst out.
  destruct (accepted_descriptor f _ Hacc)
    as (e2 & -> & Hd & _ & Hs & He & Hl & _).
  simpl in Hs, He, Hl.
  rewrite named_neither; [auto| rewrite Hd; exact Hdoc | rewrite Hs; exact Hsf].
Qed.

(** X8.  Without a doc-string and with a source file, the symbol name is the
    one given to the binder when it is a non-empty string, and the
    function's own name otherwise. *)
Theorem source_file_symbol_default
    (ename0 elib0 slang : option string) (path : string) (f : HostFunction)
    (rt : rt_state) (log : list event) :
  path <> "" ->
  truthy (f_doc f) = false ->
  let out := FromExtern.__call__ f
               (mkWorld _ (FromExtern.__init__ ename0 elib0 (Some path) slang)
                        rt log) in
  accepted out ->
  ename (w_ext (snd out))
  = if truthy ename0 then ename0 else Some (f_name f).
Proof.
  intros Hp Hdoc out Hacc. subst out.
  destruct (accepted_descriptor f _ Hacc)
    as (e2 & -> & Hd & Hpn & Hs & He & _).
  simpl in Hs, He.
  rewrite named_ename_sfile.
  - rewrite He, Hpn. reflexivity.
  - rewrite Hd. exact Hdoc.
  - rewrite Hs. apply truthy_some, Hp.
Qed.


(** X9.  For a source file [name.ext], alone or under any directory, with a
    name that is not made of dots only and an extension without dot, the
    library name of an accepted declaration is "lib" + name + ".so": the
    directory and the last extension are dropped, earlier dots of the name
    are kept. *)
Theorem library_name_of_path
    (ename0 elib0 slang : option string) (f : HostFunction)
    (rt : rt_state) (log : list event) (dir name ext path : string) :
  occurs "/" name = false -> occurs "/" ext = false ->
  occurs "." ext = false -> only_dots name = false ->
  path = name ++ "." ++ ext \/ path = dir ++ "/" ++ name ++ "." ++ ext ->
  let out := FromExtern.__call__ f
               (mkWorld _ (FromExtern.__init__ ename0 elib0 (Some path) slang)
                        rt log) in
  accepted out ->
  elib (w_ext (snd out)) = Some ("lib" ++ name ++ ".so").
Proof.
  intros Hn He Hd Hdots Hpath out Hacc. subst out.
  destruct (stem_strips dir name ext Hn He Hd Hdots) as [S1 S2].
  assert (Hne : path <> "").
  { destruct Hpath as [-> | ->].
    - apply only_dots_nonempty, Hdots.
    - apply append_nonempty. discriminate. }
  destruct (accepted_descriptor f _ Hacc) as (e2 & -> & _ & _ & Hs & _).
  simpl in Hs.
  rewrite named_elib_sfile by (rewrite Hs; apply truthy_some, Hne).
  rewrite Hs. unfold lib_name. simpl str_of.
  destruct Hpath as [-> | ->]; [rewrite S1|rewrite S2]; reflexivity.
Qed.

(** X10.  For a source file whose base name has no dot, alone or under any
    directory, the library name of an accepted declaration is "lib" + the
    whole base name + ".so". *)
Theorem library_name_without_extension
    (ename0 elib0 slang : option string) (f : HostFunction)
    (rt : rt_state) (log : list event) (dir name path : string) :
  name <> "" ->
  occurs "/" name = false -> occurs "." name = false ->
  path = name \/ path = dir ++ "/" ++ name ->
  let out := FromExtern.__call__ f
               (mkWorld _ (FromExtern.__init__ ename0 elib0 (Some path) slang)
                        rt log) in
  accepted out ->
  elib (w_ext (snd out)) = Some ("lib" ++ name ++ ".so").
Proof.
  intros Hne0 Hn Hd Hpath out Hacc. subst out.
  destruct (stem_plain dir name Hn Hd) as [S1 S2].
  assert (Hne : path <> "").
  { destruct Hpath as [-> | ->]; [exact Hne0|].
    apply append_nonempty. discriminate. }
  destruct (accepted_descriptor f _ Hacc) as (e2 & -> & _ & _ & Hs & _).
  simpl in Hs.
  rewrite named_elib_sfile by (rewrite Hs; apply truthy_some, Hne).
  rewrite Hs. unfold lib_name. simpl str_of.
  destruct Hpath as [-> | ->]; [rewrite S1|rewrite S2]; reflexivity.
Qed.

End NamingMore.

(* ===================================================================== *)
(** ** Further properties of the bound call                               *)
(* ===================================================================== *)

Section BoundCallMore.
Context `{Runtime}.

(** What one call does to the log and to the descriptor. *)
Lemma wrapped_f_effect (actuals : list value) (w : World) :
  let w' := snd (FromExtern.wrapped_f actuals w) in
  exists evs,
    w_log w' = (w_log w ++ evs)%list /\
    Forall (fun ev => forall e, event_extern ev = Some e -> e = w_ext w) evs /\
    (call_types actuals = atypes (w_ext w) -> evs <> []) /\
    (w_ext w' = w_ext w \/
     (efunc (w_ext w) = None /\
      exists h, w_ext w' = set_efunc (Some h) (w_ext w))).
Proof.
  cbv zeta. rewrite wrapped_f_phases. cbv zeta.
  destruct (list_ne (call_types actuals) (atypes (w_ext w))) eqn:Hne.
  - exists []. simpl. rewrite app_nil_r. repeat split; auto.
    intros E. apply list_ne_true in Hne. contradiction.
  - destruct (efunc (w_ext w)) as [h|] eqn:Ef.
    + destruct (native_call h actuals (w_rt w)) as [r rt'].
      exists [EvCall h actuals]. simpl. repeat split; auto; try discriminate.
      constructor; [|constructor]. intros e E. discriminate E.
    + destruct (rt_materialize (w_ext w) (w_rt w)) as [[h0|] rt'].
      * destruct (typemap_getitems (atypes (w_ext w))) as [ats|x];
          [destruct (typemap_getitem (rtype (w_ext w))) as [c|x]|].
        -- destruct (native_call _ actuals rt') as [r rt''].
           eexists [EvMaterialize (w_ext w) (Some h0); EvCall _ actuals].
           simpl. rewrite <- app_assoc. simpl.
           repeat split; try discriminate.
           ++ constructor; [intros e E; inversion E; reflexivity|].
              constructor; [intros e E; discriminate E|constructor].
           ++ right. split; [reflexivity|]. eauto.
        -- exists [EvMaterialize (w_ext w) (Some h0)]. simpl.
           repeat split; auto; try discriminate.
           constructor; [intros e E; inversion E; reflexivity|constructor].
        -- exists [EvMaterialize (w_ext w) (Some h0)]. simpl.
           repeat split; auto; try discriminate.
           constructor; [intros e E; inversion E; reflexivity|constructor].
      * exists [EvMaterialize (w_ext w) None]. simpl.
        repeat split; auto; try discriminate.
        constructor; [intros e E; inversion E; reflexivity|constructor].
Qed.

(** X11.  A call never touches the declaration: whatever its outcome, the
    descriptor afterwards is the one before, or the one before with a
    handle registered where there was none. *)
Theorem call_keeps_declaration (actuals : list value) (w : World) :
  let d' := w_ext (snd (FromExtern.wrapped_f actuals w)) in
  d' = w_ext w \/
  (efunc (w_ext w) = None /\ exists h, d' = set_efunc (Some h) (w_ext w)).
Proof.
  cbv zeta. destruct (wrapped_f_effect actuals w) as (evs & _ & _ & _ & Hd).
  exact Hd.
Qed.

(** X12.  A call leaves the world exactly as it was if and only if its
    argument types are not the declared ones: a call whose types agree
    always reaches the runtime or the native function. *)
Theorem call_reaches_runtime_iff (actuals : list value) (w : World) :
  snd (FromExtern.wrapped_f actuals w) = w <->
  call_types actuals <> atypes (w_ext w).
Proof.
  split.
  - intros E Hty.
    destruct (wrapped_f_effect actuals w) as (evs & Hlog & _ & Hne & _).
    cbv zeta in Hlog. rewrite E in Hlog.
    apply (f_equal (@List.length event)) in Hlog.
    rewrite length_app in Hlog.
    destruct evs; [apply (Hne Hty); reflexivity|simpl in Hlog; lia].
  - intros NE. rewrite wrapped_f_mismatch by exact NE. reflexivity.
Qed.

(** X13.  With a handle registered and agreeing argument types, the call is
    the native call on that handle with the same arguments: its result, a
    value or an exception, is the result of the call, and the handle stays
    registered also when the native call raises. *)
Theorem cached_dispatch (actuals : list value) (w : World) (h : Handle) :
  efunc (w_ext w) = Some h ->
  call_types actuals = atypes (w_ext w) ->
  let out := FromExtern.wrapped_f actuals w in
  fst out = fst (native_call h actuals (w_rt w)) /\
  w_rt (snd out) = snd (native_call h actuals (w_rt w)) /\
  efunc (w_ext (snd out)) = Some h.
Proof.
  intros Ef Hty out. subst out. rewrite wrapped_f_phases. cbv zeta.
  assert (Hne : list_ne (call_types actuals) (atypes (w_ext w)) = false).
  { destruct (list_ne _ _) eqn:E; [|reflexivity].
    apply list_ne_true in E. contradiction. }
  rewrite Hne, Ef.
  destruct (native_call h actuals (w_rt w)) as [r rt']. simpl. auto.
Qed.

Lemma class_marshaling (c : pyclass) (x : option ctype) :
  typemap_getitem (VClass c) = Return x -> x <> None.
Proof.
  unfold typemap_getitem, typemap, dict_get, py_eqb.
  repeat match goal with
         | |- context [value_eq_dec ?a ?b] =>
             destruct (value_eq_dec a b) as [E|_];
             [try discriminate E;
              intros Hx; inversion Hx; discriminate|]
         end.
  discriminate.
Qed.

Lemma call_types_marshaling (actuals : list value) :
  forall ats,
    typemap_getitems (call_types actuals) = Return ats ->
    List.length ats = List.length actuals /\ Forall (fun x => x <> None) ats.
Proof.
  induction actuals as [|a actuals IH]; simpl; intros ats E.
  - inversion E. split; [reflexivity|constructor].
  - destruct (typemap_getitem (VClass (type_of a))) as [c|x] eqn:Ec;
      [|discriminate].
    destruct (typemap_getitems (call_types actuals)) as [cs|x] eqn:Ecs;
      [|discriminate].
    inversion E; subst. destruct (IH cs eq_refl) as [Hl Hf].
    simpl. split; [congruence|].
    constructor; [eapply class_marshaling; eauto|exact Hf].
Qed.

(** X14.  The first call that gets a handle, on a declaration whose types
    are all keys of [typemap]: the handle is registered with one conversion
    per argument, none of them the "no value" one, taken from [typemap]
    for the declared types, and with the conversion of the declared return
    type; the native call is made on the handle so configured. *)
Theorem first_call_configures
    (actuals : list value) (w : World) (h0 : Handle) (rt' : rt_state) :
  efunc (w_ext w) = None ->
  call_types actuals = atypes (w_ext w) ->
  declared_ok (w_ext w) ->
  rt_materialize (w_ext w) (w_rt w) = (Some h0, rt') ->
  let out := FromExtern.wrapped_f actuals w in
  exists ats rty,
    typemap_getitems (atypes (w_ext w)) = Return ats /\
    typemap_getitem (rtype (w_ext w)) = Return rty /\
    List.length ats = List.length actuals /\
    Forall (fun x => x <> None) ats /\
    let h := mkHandle (h_id h0) ats rty in
    efunc (w_ext (snd out)) = Some h /\
    fst out = fst (native_call h actuals rt') /\
    w_log (snd out)
    = (w_log w ++ [EvMaterialize (w_ext w) (Some h0); EvCall h actuals])%list.
Proof.
  intros Ef Hty [Hat Hrt] Hm out. subst out.
  destruct (typemap_getitems_ok _ Hat) as [ats Hats].
  destruct (typemap_getitem_ok _ Hrt) as [rty Hrty].
  exists ats, rty.
  assert (Hshape : List.length ats = List.length actuals /\
                   Forall (fun x => x <> None) ats).
  { apply call_types_marshaling. rewrite Hty. exact Hats. }
  destruct Hshape as [Hl Hf].
  split; [exact Hats|]. split; [exact Hrty|].
  split; [exact Hl|]. split; [exact Hf|].
  rewrite wrapped_f_phases. cbv zeta.
  assert (Hne : list_ne (call_types actuals) (atypes (w_ext w)) = false).
  { destruct (list_ne _ _) eqn:E; [|reflexivity].
    apply list_ne_true in E. contradiction. }
  rewrite Hne, Ef, Hm, Hats, Hrty.
  destruct (native_call _ actuals rt') as [r rt''].
  simpl. rewrite <- app_assoc. simpl. auto.
Qed.

(** X15.  A function accepted with a declared argument type that is not a
    class object, [None] for one, can never be called: the type of an
    argument is always a class, so every call raises the type-mismatch
    error and leaves the world as it was. *)
Theorem non_class_parameter_uncallable
    (actuals : list value) (w : World) (t : value) :
  In t (atypes (w_ext w)) ->
  (forall c, t <> VClass c) ->
  let out := FromExtern.wrapped_f actuals w in
  (exists x, fst out = Raise x /\ TypeMismatchError x) /\ snd out = w.
Proof.
  intros Hin Hnc out. subst out.
  rewrite wrapped_f_mismatch.
  - simpl. split; [|reflexivity].
    eexists. split; [reflexivity|]. unfold TypeMismatchError. eauto.
  - intros E. rewrite <- E in Hin. unfold call_types in Hin.
    apply in_map_iff in Hin. destruct Hin as (a & Ha & _).
    exact (Hnc _ (eq_sym Ha)).
Qed.

(** The descriptors shown to the runtime over a sequence of calls keep what
    calls never write. *)
Lemma calls_show_descriptor (P : Extern -> Prop) :
  (forall e h, P e -> P (set_efunc (Some h) e)) ->
  forall (l : list (list value)) (w : World),
    P (w_ext w) ->
    exists evs,
      w_log (calls l w) = (w_log w ++ evs)%list /\
      Forall (fun ev => forall e, event_extern ev = Some e -> P e) evs.
Proof.
  intros Hset. induction l as [|actuals l IH]; intros w Hw; simpl.
  - exists []. rewrite app_nil_r. split; [reflexivity|constructor].
  - destruct (wrapped_f_effect actuals w) as (evs1 & Hlog1 & Hev1 & _ & Hd).
    cbv zeta in Hlog1, Hd.
    assert (Hw' : P (w_ext (snd (FromExtern.wrapped_f actuals w)))).
    { destruct Hd as [-> | (_ & h & ->)]; auto. }
    destruct (IH _ Hw') as (evs2 & Hlog2 & Hev2).
    exists (evs1 ++ evs2)%list. rewrite Hlog2, Hlog1, app_assoc.
    split; [reflexivity|].
    apply Forall_app. split; [|exact Hev2].
    eapply Forall_impl; [|exact Hev1].
    intros ev Hev e E. rewrite (Hev e E). exact Hw.
Qed.

(** X16.  A function bound through [FromC] (through [FromChapel]) is shown
    to the runtime, in the hint and in every later request for a handle,
    with the source language "C" ("Chapel"), the source file given to the
    binder and its own name as the Python name. *)
Theorem language_binders
    (ename0 elib0 sfile0 : option string) (f : HostFunction)
    (rt : rt_state) (log : list event) (l : list (list value)) :
  (let out := FromExtern.__call__ f
                (mkWorld _ (FromC.__init__ ename0 elib0 sfile0) rt log) in
   accepted out ->
   exists evs,
     w_log (calls l (snd out)) = (log ++ evs)%list /\
     Forall (fun ev => forall e, event_extern ev = Some e ->
                                 slang e = Some "C" /\ sfile e = sfile0 /\
                                 pname e = Some (f_name f)) evs) /\
  (let out := FromExtern.__call__ f
                (mkWorld _ (FromChapel.__init__ ename0 elib0 sfile0) rt log) in
   accepted out ->
   exists evs,
     w_log (calls l (snd out)) = (log ++ evs)%list /\
     Forall (fun ev => forall e, event_extern ev = Some e ->
                                 slang e = Some "Chapel" /\ sfile e = sfile0 /\
                                 pname e = Some (f_name f)) evs).
Proof.
  assert (Hgen : forall lang : string,
             let out := FromExtern.__call__ f
                          (mkWorld _ (FromExtern.__init__ ename0 elib0 sfile0
                                                          (Some lang)) rt log) in
             accepted out ->
             exists evs,
               w_log (calls l (snd out)) = (log ++ evs)%list /\
               Forall (fun ev => forall e, event_extern ev = Some e ->
                                           slang e = Some lang /\
                                           sfile e = sfile0 /\
                                           pname e = Some (f_name f)) evs).
  { intros lang out Hacc.
    set (P := fun e : Extern => slang e = Some lang /\ sfile e = sfile0 /\
                                pname e = Some (f_name f)).
    assert (HP : P (w_ext (snd out))).
    { subst out.
      destruct (accepted_descriptor f _ Hacc)
        as (e2 & E & _ & Hp & Hs & _).
      destruct (binding_fields_kept f
                  (mkWorld _ (FromExtern.__init__ ename0 elib0 sfile0
                                                  (Some lang)) rt log))
        as (_ & Hsf & Hsl).
      unfold P. rewrite Hsf, Hsl. simpl. repeat split.
      rewrite E. destruct (named_fields e2) as (_ & -> & _). exact Hp. }
    destruct (calls_show_descriptor P (fun e h Pe => Pe) l (snd out) HP)
      as (evs2 & Hlog2 & Hev2).
    destruct (accepted_inv f _ Hacc) as (r & _ & _ & _ & E).
    fold out in E.
    exists (EvHint (w_ext (snd out)) :: evs2).
    split.
    - rewrite Hlog2. rewrite E at 1. simpl. rewrite <- app_assoc. simpl.
      rewrite E. reflexivity.
    - constructor; [|exact Hev2].
      intros e Ee. inversion Ee; subst e. exact HP. }
  split; [exact (Hgen "C")|exact (Hgen "Chapel")].
Qed.

End BoundCallMore.

(* ===================================================================== *)
(** ** The further properties on concrete declarations                    *)
(* ===================================================================== *)

Lemma hint_after_naming_witness :
  let w := Scripted.start
             (FromExtern.__init__ None None (Some "add.c") (Some "C")) [] in
  let out := FromExtern.__call__ Scripted.add w in
  accepted out /\
  w_log (snd out) = [EvHint (w_ext (snd out))] /\
  elib (w_ext (snd out)) = Some "libadd.so".
Proof.
  intros w out.
  assert (Hacc : accepted out) by reflexivity.
  destruct (@hint_after_naming Scripted.runtime Scripted.add w Hacc)
    as (Hlog & _ & _).
  split; [exact Hacc|]. split; [exact Hlog|reflexivity].
Defined.

Lemma missing_default_stops_binding_witness :
  let w := Scripted.start Samples.plain [] in
  let out := FromExtern.__call__ half_declared w in
  (exists p, In p (f_params half_declared) /\ snd p = None) /\
  fst out = Raise (arity_error half_declared) /\
  anames (w_ext (snd out)) = ["a"; "b"] /\
  w_log (snd out) = [].
Proof.
  intros w out.
  assert (Hp : exists p, In p (f_params half_declared) /\ snd p = None).
  { exists ("a", None). split; [left; reflexivity|reflexivity]. }
  destruct (@missing_default_stops_binding Scripted.runtime half_declared w Hp)
    as (Hr & Hn & _ & Hlog & _).
  split; [exact Hp|]. split; [exact Hr|]. split; [exact Hn|exact Hlog].
Defined.

Lemma reused_binder_keeps_types_witness :
  let w := Scripted.start Samples.plain [] in
  accepted (FromExtern.__call__ Scripted.add w) /\
  f_params Scripted.add <> [] /\
  let w1 := snd (FromExtern.__call__ Scripted.add w) in
  let out := FromExtern.__call__ nullary w1 in
  fst out = Raise missing_declaration /\
  atypes (w_ext (snd out)) = [VClass CInt; VClass CInt].
Proof.
  intros w.
  assert (Hacc : accepted (FromExtern.__call__ Scripted.add w)) by reflexivity.
  assert (Hg : f_params Scripted.add <> []) by discriminate.
  split; [exact Hacc|]. split; [exact Hg|].
  destruct (@reused_binder_keeps_types Scripted.runtime Scripted.add nullary w
              VNone Hacc Hg eq_refl eq_refl) as (Hr & Ha & _).
  split; [exact Hr|]. rewrite Ha. reflexivity.
Defined.

Lemma first_unsupported_reported_witness :
  call0 two_unsupported = Return (VClass CInt) /\
  hashable (VClass CList) = true /\
  in_typemap (VClass CList) = false /\
  fst (FromExtern.__call__ two_unsupported (Scripted.start Samples.plain []))
  = Raise (unsupported_type (VClass CList) "b").
Proof.
  assert (Hcall : call0 two_unsupported = Return (VClass CInt)) by reflexivity.
  assert (Hhash : hashable (VClass CList) = true) by reflexivity.
  assert (Hbad : in_typemap (VClass CList) = false) by reflexivity.
  split; [exact Hcall|]. split; [exact Hhash|]. split; [exact Hbad|].
  refine (@first_unsupported_reported Scripted.runtime None None None None
            two_unsupported [] [] (VClass CInt)
            [("a", Some (VClass CInt))] [("c", Some (VClass CObject))]
            "b" (VClass CList) Hcall eq_refl _ Hhash Hbad).
  constructor; [|constructor].
  exists (VClass CInt). split; reflexivity.
Defined.

Lemma naming_without_source_witness :
  let out := FromExtern.__call__ Scripted.add
               (Scripted.start
                  (FromExtern.__init__ None (Some "libm.so") None (Some "C"))
                  []) in
  truthy (f_doc Scripted.add) = false /\
  accepted out /\
  ename (w_ext (snd out)) = None /\
  elib (w_ext (snd out)) = Some "libm.so".
Proof.
  intros out.
  assert (Hdoc : truthy (f_doc Scripted.add) = false) by reflexivity.
  assert (Hacc : accepted out) by reflexivity.
  split; [exact Hdoc|]. split; [exact Hacc|].
  exact (@naming_without_source Scripted.runtime None (Some "libm.so") None
           (Some "C") Scripted.add [] [] Hdoc eq_refl Hacc).
Defined.

Lemma explicit_library_name_replaced_witness :
  let out := FromExtern.__call__ Scripted.add
               (Scripted.start
                  (FromExtern.__init__ None (Some "libm.so") (Some "add.c")
                                       (Some "C")) []) in
  accepted out /\
  elib (w_ext (snd out)) = Some (lib_name "add.c") /\
  lib_name "add.c" = "libadd.so".
Proof.
  intros out.
  assert (Hacc : accepted out) by reflexivity.
  split; [exact Hacc|]. split; [|reflexivity].
  exact (proj1 (@explicit_library_name_replaced Scripted.runtime None
                  (Some "libm.so") (Some "add.c") (Some "C") Scripted.add
                  [] [] Hacc) eq_refl).
Defined.

Lemma source_file_symbol_default_witness :
  let out := FromExtern.__call__ Scripted.add
               (Scripted.start
                  (FromExtern.__init__ None None (Some "add.c") (Some "C")) []) in
  "add.c" <> "" /\ accepted out /\ ename (w_ext (snd out)) = Some "add".
Proof.
  intros out.
  assert (Hp : "add.c" <> "") by discriminate.
  assert (Hacc : accepted out) by reflexivity.
  split; [exact Hp|]. split; [exact Hacc|].
  exact (@source_file_symbol_default Scripted.runtime None None (Some "C")
           "add.c" Scripted.add [] [] Hp eq_refl Hacc).
Defined.

Lemma library_name_of_path_witness :
  let out := FromExtern.__call__ Scripted.add
               (Scripted.start
                  (FromExtern.__init__ None None (Some "/src/v1.2/add.tar.gz")
                                       (Some "C")) []) in
  only_dots "add.tar" = false /\
  accepted out /\
  elib (w_ext (snd out)) = Some "libadd.tar.so".
Proof.
  intros out.
  assert (Hd : only_dots "add.tar" = false) by reflexivity.
  assert (Hacc : accepted out) by reflexivity.
  split; [exact Hd|]. split; [exact Hacc|].
  exact (@library_name_of_path Scripted.runtime None None (Some "C")
           Scripted.add [] [] "/src/v1.2" "add.tar" "gz" "/src/v1.2/add.tar.gz"
           eq_refl eq_refl eq_refl Hd (or_intror eq_refl) Hacc).
Defined.

Lemma library_name_without_extension_witness :
  let out := FromExtern.__call__ Scripted.add
               (Scripted.start
                  (FromExtern.__init__ None None (Some "/src/add") (Some "C"))
                  []) in
  "add" <> "" /\ accepted out /\ elib (w_ext (snd out)) = Some "libadd.so".
Proof.
  intros out.
  assert (Hn : "add" <> "") by discriminate.
  assert (Hacc : accepted out) by reflexivity.
  split; [exact Hn|]. split; [exact Hacc|].
  exact (@library_name_without_extension Scripted.runtime None None (Some "C")
           Scripted.add [] [] "/src" "add" "/src/add"
           Hn eq_refl eq_refl (or_intror eq_refl) Hacc).
Defined.

Lemma call_reaches_runtime_iff_witness :
  let w := snd (FromExtern.__call__ Scripted.add
                  (Scripted.start Samples.plain [Scripted.raw 7])) in
  call_types [VInt 2] <> atypes (w_ext w) /\
  snd (FromExtern.wrapped_f [VInt 2] w) = w.
Proof.
  intros w.
  assert (NE : call_types [VInt 2] <> atypes (w_ext w)) by discriminate.
  split; [exact NE|].
  exact (proj2 (@call_reaches_runtime_iff Scripted.runtime [VInt 2] w) NE).
Defined.

Lemma cached_dispatch_witness :
  let w := calls [[VInt 1; VInt 1]]
             (snd (FromExtern.__call__ Scripted.add
                     (Scripted.start Samples.plain [Scripted.raw 7]))) in
  let h := mkHandle 7 [Some c_int; Some c_int] (Some c_int) in
  efunc (w_ext w) = Some h /\
  call_types [VInt 2; VInt 3] = atypes (w_ext w) /\
  let out := FromExtern.wrapped_f [VInt 2; VInt 3] w in
  fst out = Return (VInt 5) /\ efunc (w_ext (snd out)) = Some h.
Proof.
  intros w h.
  assert (Ef : efunc (w_ext w) = Some h) by reflexivity.
  assert (Hty : call_types [VInt 2; VInt 3] = atypes (w_ext w)) by reflexivity.
  split; [exact Ef|]. split; [exact Hty|].
  destruct (@cached_dispatch Scripted.runtime [VInt 2; VInt 3] w h Ef Hty)
    as (Hr & _ & He).
  split; [exact Hr|exact He].
Defined.

Lemma first_call_configures_witness :
  let w := snd (FromExtern.__call__ Scripted.add
                  (Scripted.start Samples.plain [Scripted.raw 7])) in
  efunc (w_ext w) = None /\
  call_types [VInt 2; VInt 3] = atypes (w_ext w) /\
  declared_ok (w_ext w) /\
  let out := FromExtern.wrapped_f [VInt 2; VInt 3] w in
  exists ats rty,
    List.length ats = 2%nat /\
    Forall (fun x => x <> None) ats /\
    efunc (w_ext (snd out)) = Some (mkHandle 7 ats rty).
Proof.
  intros w.
  assert (Ef : efunc (w_ext w) = None) by reflexivity.
  assert (Hty : call_types [VInt 2; VInt 3] = atypes (w_ext w)) by reflexivity.
  assert (Hok : declared_ok (w_ext w)).
  { split; [|reflexivity]. repeat constructor. }
  split; [exact Ef|]. split; [exact Hty|]. split; [exact Hok|].
  destruct (@first_call_configures Scripted.runtime [VInt 2; VInt 3] w
              (mkHandle 7 [] None) [] Ef Hty Hok eq_refl)
    as (ats & rty & _ & _ & Hl & Hf & He & _).
  exists ats, rty. split; [exact Hl|]. split; [exact Hf|exact He].
Defined.

Lemma non_class_parameter_uncallable_witness :
  let w := snd (FromExtern.__call__ Samples.takes_none
                  (Scripted.start Samples.plain [Scripted.raw 7])) in
  In VNone (atypes (w_ext w)) /\
  (forall c, VNone <> VClass c) /\
  let out := FromExtern.wrapped_f [VNone] w in
  (exists x, fst out = Raise x /\ TypeMismatchError x) /\ snd out = w.
Proof.
  intros w.
  assert (Hin : In VNone (atypes (w_ext w))) by (left; reflexivity).
  assert (Hnc : forall c, VNone <> VClass c) by (intros c; discriminate).
  split; [exact Hin|]. split; [exact Hnc|].
  exact (@non_class_parameter_uncallable Scripted.runtime [VNone] w VNone
           Hin Hnc).
Defined.

Lemma language_binders_witness :
  let out := FromExtern.__call__ Scripted.add
               (Scripted.start (FromChapel.__init__ None None (Some "add.chpl"))
                               [Scripted.raw 7]) in
  accepted out /\
  exists evs,
    w_log (calls [[VInt 2; VInt 3]] (snd out)) = evs /\
    Forall (fun ev => forall e, event_extern ev = Some e ->
                                slang e = Some "Chapel" /\
                                sfile e = Some "add.chpl" /\
                                pname e = Some "add") evs.
Proof.
  intros out.
  assert (Hacc : accepted out) by reflexivity.
  split; [exact Hacc|].
  exact (proj2 (@language_binders Scripted.runtime None None (Some "add.chpl")
                  Scripted.add [Scripted.raw 7] [] [[VInt 2; VInt 3]]) Hacc).
Defined.
